(** * Document upload pipeline: a shallow embedding of [document_upload.py]
    and of the part of [config.py] it reads.

    The Python code is embedded as executable Rocq functions.  Dicts are
    finite maps from string keys to dynamically typed values, the set of
    supported extensions is a finite set of strings, and the calls to the
    outside world (file system, random source, S3 client, PostgreSQL
    driver) are operations of a small state-and-exception monad that
    records every collaborator call in a trace. *)

From Stdlib Require Import ZArith String Ascii List DecimalString Lia.
From stdpp Require Import gmap strings list.

Open Scope string_scope.

(** ** Python strings

    Strings are modelled as byte strings holding ASCII text. *)
Module PyStr.

(** [str.lower] on ASCII text: the letters A-Z move to a-z. *)
Definition lower_ascii (c : ascii) : ascii :=
  let n := nat_of_ascii c in
  if ((65 <=? n) && (n <=? 90))%nat then ascii_of_nat (n + 32) else c.

Fixpoint lower (s : string) : string :=
  match s with
  | EmptyString => EmptyString
  | String c s' => String (lower_ascii c) (lower s')
  end.

(** [s.split(sep)] for a one-character separator: never returns the empty
    list, keeps empty fields. *)
Fixpoint split (sep : ascii) (s : string) : list string :=
  match s with
  | EmptyString => [EmptyString]
  | String c s' =>
      if Ascii.eqb c sep then EmptyString :: split sep s'
      else match split sep s' with
           | [] => [String c EmptyString]
           | h :: t => String c h :: t
           end
  end.

(** [sep.join(l)]. *)
Definition join (sep : string) (l : list string) : string :=
  String.concat sep l.

(** [s.rfind(c)]: the index of the last occurrence, [None] for Python's -1. *)
Fixpoint rfind (c : ascii) (s : string) : option nat :=
  match s with
  | EmptyString => None
  | String a s' =>
      match rfind c s' with
      | Some i => Some (S i)
      | None => if Ascii.eqb a c then Some 0%nat else None
      end
  end.

(** [str(n)] for an integer. *)
Definition of_Z (z : Z) : string :=
  if (z <? 0)%Z then "-" ++ NilZero.string_of_uint (N.to_uint (Z.to_N (- z)))
  else NilZero.string_of_uint (N.to_uint (Z.to_N z)).

End PyStr.

(** ** [pathlib.Path] on a POSIX system

    [Path(s)] drops empty and ["."] components and keeps a root of one
    slash, or of two when the string starts with exactly two. *)
Module PurePath.

Definition root (s : string) : string :=
  match s with
  | String "/" (String "/" (String "/" _)) => "/"
  | String "/" (String "/" _) => "//"
  | String "/" _ => "/"
  | _ => ""
  end.

Definition is_component (x : string) : bool :=
  negb (String.eqb x "") && negb (String.eqb x ".").

Definition parts (s : string) : list string :=
  List.filter is_component (PyStr.split "/" s).

(** [str(Path(s))] *)
Definition str (s : string) : string :=
  match root s, parts s with
  | EmptyString, [] => "."
  | r, ps => r ++ PyStr.join "/" ps
  end.

(** [Path(s).name]: the final component, empty when there is none. *)
Definition name (s : string) : string := List.last (parts s) "".

(** [Path(s).suffix]: the name from its last dot on, unless that dot is
    the first or the last character of the name. *)
Definition suffix (s : string) : string :=
  let n := name s in
  match PyStr.rfind "." n with
  | Some i =>
      if ((0 <? i) && (i <? String.length n - 1))%nat
      then String.substring i (String.length n - i) n
      else ""
  | None => ""
  end.

End PurePath.

(** ** [uuid.uuid4] and [str(UUID)] *)
Module Uuid.

(** [UUID(bytes=os.urandom(16), version=4)]: the 128-bit integer read from
    the random bytes, with the RFC 4122 variant and the version number
    forced into their bit fields. *)
Definition uuid4_int (random : Z) : Z :=
  let i := (random mod 2 ^ 128)%Z in
  let i := Z.land i (Z.lnot (Z.shiftl 0xc000 48)) in
  let i := Z.lor i (Z.shiftl 0x8000 48) in
  let i := Z.land i (Z.lnot (Z.shiftl 0xf000 64)) in
  Z.lor i (Z.shiftl 4 76).

Definition hex_digit (d : Z) : ascii :=
  match String.get (Z.to_nat d) "0123456789abcdef" with
  | Some c => c
  | None => "0"%char
  end.

(** The [n] lowest hexadecimal digits of [z], most significant first:
    ['%0nx' % z] when [z] fits. *)
Fixpoint hex (n : nat) (z : Z) : string :=
  match n with
  | O => ""
  | S n' => hex n' (Z.shiftr z 4) ++ String (hex_digit (Z.land z 15)) ""
  end.

(** [str(u)]: 8-4-4-4-12 hexadecimal digits. *)
Definition to_string (i : Z) : string :=
  let h := hex 32 i in
  String.substring 0 8 h ++ "-" ++ String.substring 8 4 h ++ "-" ++
  String.substring 12 4 h ++ "-" ++ String.substring 16 4 h ++ "-" ++
  String.substring 20 12 h.

(** Shape of a version-4 UUID string: 36 characters, hyphens at 8, 13, 18
    and 23, hexadecimal digits elsewhere, version digit 4 at 14 and a
    variant digit among 8, 9, a, b at 19. *)
Definition is_hex (c : ascii) : bool :=
  match String.index 0 (String c "") "0123456789abcdef" with
  | Some _ => true
  | None => false
  end.

Fixpoint shape_from (i : nat) (s : string) : bool :=
  match s with
  | EmptyString => true
  | String c s' =>
      (if (i =? 8)%nat || (i =? 13)%nat || (i =? 18)%nat || (i =? 23)%nat
       then Ascii.eqb c "-"
       else if (i =? 14)%nat then Ascii.eqb c "4"
       else if (i =? 19)%nat
            then Ascii.eqb c "8" || Ascii.eqb c "9" || Ascii.eqb c "a" || Ascii.eqb c "b"
            else is_hex c)
      && shape_from (S i) s'
  end.

Definition is_uuid4_string (s : string) : bool :=
  (String.length s =? 36)%nat && shape_from 0 s.

End Uuid.

(** ** Rendering of [size / (1024*1024)] with [:.0f] and [:.2f]

    Dividing an integer by 2^20 yields the double nearest to the quotient
    (significand rounded to 53 bits, ties to even); the format then prints
    the decimal nearest to that double, ties to even again. *)
Module FloatFmt.

Definition round_half_even_div (a b : Z) : Z :=
  let q := (a / b)%Z in
  let r := (a mod b)%Z in
  if (2 * r <? b)%Z then q
  else if (b <? 2 * r)%Z then (q + 1)%Z
  else if Z.even q then q else (q + 1)%Z.

(** The numerator, over 2^20, of the double that [a / (1024*1024)]
    evaluates to, for [0 <= a]. *)
Definition to_double_num (a : Z) : Z :=
  let bits := (Z.log2 a + 1)%Z in
  if (bits <=? 53)%Z then a
  else let sh := (bits - 53)%Z in
       (round_half_even_div a (2 ^ sh) * 2 ^ sh)%Z.

(** A value below 100 on two decimal digits. *)
Definition two_digits (n : Z) : string :=
  let s := PyStr.of_Z n in
  if (String.length s <? 2)%nat then "0" ++ s else s.

Definition fmt_abs (prec2 : bool) (a : Z) : string :=
  let d := to_double_num a in
  if prec2 then
    let n := round_half_even_div (d * 100) (2 ^ 20) in
    PyStr.of_Z (n / 100) ++ "." ++ two_digits (n mod 100)
  else PyStr.of_Z (round_half_even_div d (2 ^ 20)).

Definition fmt (prec2 : bool) (a : Z) : string :=
  if (a <? 0)%Z then "-" ++ fmt_abs prec2 (- a) else fmt_abs prec2 a.

(** [f'{a / (1024*1024):.0f}'] *)
Definition mb0 (a : Z) : string := fmt false a.
(** [f'{a / (1024*1024):.2f}'] *)
Definition mb2 (a : Z) : string := fmt true a.

End FloatFmt.

(** ** Python values, dicts and exceptions *)

Inductive PyVal : Type :=
  | VNone
  | VBool (b : bool)
  | VInt (z : Z)
  | VStr (s : string).

(** A dict with string keys, as returned by every method of the uploader. *)
Abbreviation Dict := (gmap string PyVal).

(** Truth value of an object, as tested by [if] and [not]. *)
Definition truthy (v : PyVal) : bool :=
  match v with
  | VNone => false
  | VBool b => b
  | VInt z => negb (z =? 0)%Z
  | VStr s => negb (String.eqb s "")
  end.

(** [str(v)], which is also how an f-string renders [{v}]. *)
Definition py_str (v : PyVal) : string :=
  match v with
  | VNone => "None"
  | VBool true => "True"
  | VBool false => "False"
  | VInt z => PyStr.of_Z z
  | VStr s => s
  end.

Definition of_optional (o : option string) : PyVal :=
  match o with
  | Some s => VStr s
  | None => VNone
  end.

(** The classes of the errors the collaborators raise; every one derives
    from [Exception], which is what the handlers catch, and only
    [ClientError] has a handler of its own.  Interrupts of the process
    ([KeyboardInterrupt], [SystemExit]) are not errors of a call and are
    not modelled. *)
Inductive ExcClass : Type :=
  | ClientError
  | OSError
  | ValueError
  | KeyError
  | TypeError
  | DatabaseError
  | OtherException.

(** An exception object: its class and [str(e)]. *)
Record PyExc : Type := mkExc { exc_class : ExcClass; exc_str : string }.

(** ** Configuration ([config.py]) *)

Record Config : Type := mkConfig {
  AWS_ACCESS_KEY_ID : option string;
  AWS_SECRET_ACCESS_KEY : option string;
  AWS_REGION : string;
  S3_BUCKET_NAME : string;
  RDS_HOST : option string;
  RDS_PORT : Z;
  RDS_DB : option string;
  RDS_USER : option string;
  RDS_PASSWORD : option string;
  RDS_SSL_MODE : string;
  MAX_FILE_SIZE : Z;
  SUPPORTED_EXTENSIONS : list string
}.

(** [os.getenv(key)] and [os.getenv(key, default)]. *)
Definition getenv (environ : gmap string string) (key : string) : option string :=
  environ !! key.

Definition getenv_default (environ : gmap string string) (key default : string) : string :=
  match environ !! key with
  | Some v => v
  | None => default
  end.

(** The class attributes of [Config], read from the process environment.
    The two [int(...)] conversions are taken as already evaluated. *)
Definition Config_load (environ : gmap string string) (rds_port max_file_size : Z) : Config :=
  {| AWS_ACCESS_KEY_ID := getenv environ "AWS_ACCESS_KEY_ID";
     AWS_SECRET_ACCESS_KEY := getenv environ "AWS_SECRET_ACCESS_KEY";
     AWS_REGION := getenv_default environ "AWS_REGION" "us-east-1";
     S3_BUCKET_NAME := getenv_default environ "S3_BUCKET_NAME" "syllabus-documents";
     RDS_HOST := getenv environ "RDS_HOST";
     RDS_PORT := rds_port;
     RDS_DB := getenv environ "RDS_DB";
     RDS_USER := getenv environ "RDS_USER";
     RDS_PASSWORD := getenv environ "RDS_PASSWORD";
     RDS_SSL_MODE := getenv_default environ "RDS_SSL_MODE" "require";
     MAX_FILE_SIZE := max_file_size;
     SUPPORTED_EXTENSIONS :=
       PyStr.split "," (getenv_default environ "SUPPORTED_EXTENSIONS" ".pdf,.doc,.docx") |}.

(** Truth value of an [Optional[str]]. *)
Definition opt_truthy (o : option string) : bool :=
  match o with
  | Some s => negb (String.eqb s "")
  | None => false
  end.

Definition opt_str (o : option string) : string :=
  match o with
  | Some s => s
  | None => "None"
  end.

(** [Config.get_database_url] *)
Definition get_database_url (c : Config) : PyExc + string :=
  if negb (opt_truthy (RDS_HOST c) && opt_truthy (RDS_DB c) &&
           opt_truthy (RDS_USER c) && opt_truthy (RDS_PASSWORD c))
  then inl (mkExc ValueError "Missing required RDS PostgreSQL environment variables")
  else inr ("postgresql://" ++ opt_str (RDS_USER c) ++ ":" ++ opt_str (RDS_PASSWORD c)
            ++ "@" ++ opt_str (RDS_HOST c) ++ ":" ++ PyStr.of_Z (RDS_PORT c)
            ++ "/" ++ opt_str (RDS_DB c) ++ "?sslmode=" ++ RDS_SSL_MODE c).

(** ** The outside world *)

(** One row of the [documents] table, in the column order of the INSERT. *)
Record documents_row : Type := mkRow {
  row_document_id : string;
  row_user_id : string;
  row_file_name : PyVal;
  row_file_extension : PyVal;
  row_file_size : PyVal;
  row_mime_type : PyVal;
  row_s3_url : PyVal;
  row_upload_date : Z;
  row_status : string
}.

Inductive FileKind : Type := Regular | Directory | OtherKind.

(** What [os.stat(path)] does: it returns (kind and [st_size]), fails with
    an error that [Path.exists] turns into [False] (no such entry), or
    fails with another error, which [Path.exists] lets through. *)
Inductive StatResult : Type :=
  | StatOk (kind : FileKind) (st_size : Z)
  | StatMissing (e : PyExc)
  | StatError (e : PyExc).

(** The calls the uploader can make on its two collaborators.  The S3
    client also offers [delete_object]. *)
Inductive Event : Type :=
  | S3_upload_file (Filename Bucket Key : string)
  | S3_delete_object (Bucket Key : string)
  | Pg_connect (dsn : string)
  | Pg_execute_insert (row : documents_row)
  | Pg_commit
  | Pg_close.

(** The behaviour of everything outside the uploader during one run: the
    configuration object, the file system, the MIME table, the random
    source, the clock, and whether each collaborator call fails. *)
Record World : Type := mkWorld {
  config : Config;
  os_stat : string -> StatResult;
  guess_type : string -> option string;
  os_urandom : nat -> Z;
  utcnow : nat -> Z;
  upload_file_exc : string -> string -> string -> option PyExc;
  connect_exc : string -> option PyExc;
  execute_exc : documents_row -> option PyExc;
  commit_exc : documents_row -> option PyExc
}.

(** The state that a run changes: the calls made so far, how many random
    draws were consumed, and the committed rows of [documents]. *)
Record State : Type := mkState {
  trace : list Event;
  urandom_calls : nat;
  documents : list documents_row
}.

(** ** A monad for state and exceptions *)

Inductive Outcome (A : Type) : Type :=
  | Returned (a : A)
  | Raised (e : PyExc).
Arguments Returned {A} a.
Arguments Raised {A} e.

Definition M (A : Type) : Type := State -> Outcome A * State.

Definition ret {A} (a : A) : M A := fun st => (Returned a, st).

Definition raise {A} (e : PyExc) : M A := fun st => (Raised e, st).

Definition bind {A B} (m : M A) (k : A -> M B) : M B :=
  fun st =>
    match m st with
    | (Returned a, st') => k a st'
    | (Raised e, st') => (Raised e, st')
    end.

(** [try: body except Exception as e: handler(e)] *)
Definition try_except {A} (body : M A) (handler : PyExc -> M A) : M A :=
  fun st =>
    match body st with
    | (Returned a, st') => (Returned a, st')
    | (Raised e, st') => handler e st'
    end.

Declare Scope py_scope.
Delimit Scope py_scope with py.
Notation "x <- c ;; k" := (bind c (fun x => k))
  (at level 100, c at next level, right associativity) : py_scope.
Notation "c ;;; k" := (bind c (fun _ => k))
  (at level 100, right associativity) : py_scope.
Open Scope py_scope.

(** [d[key]]: a missing key raises [KeyError]. *)
Definition getitem (d : Dict) (key : string) : M PyVal :=
  match d !! key with
  | Some v => ret v
  | None => raise (mkExc KeyError ("'" ++ key ++ "'"))
  end.

(** A collaborator call: it is recorded, then returns or raises. *)
Definition emit (ev : Event) : M unit :=
  fun st => (Returned tt, {| trace := trace st ++ [ev];
                             urandom_calls := urandom_calls st;
                             documents := documents st |}).

Definition fail_if (o : option PyExc) : M unit :=
  match o with
  | Some e => raise e
  | None => ret tt
  end.

(** ** The uploader object

    [supported_extensions] is a Python set: membership is what matters,
    and the order in which [join] walks it is unspecified ([elements]
    fixes one). *)

Record DocumentUploader : Type := mkUploader {
  aws_access_key_id : option string;
  aws_secret_access_key : option string;
  aws_region : string;
  s3_bucket_name : string;
  db_connection_string : string;
  supported_extensions : gset string
}.

(** [a or b] on optional strings. *)
Definition py_or (a b : option string) : option string :=
  if opt_truthy a then a else b.

Definition py_or_str (a : option string) (b : string) : string :=
  match a with
  | Some s => if String.eqb s "" then b else s
  | None => b
  end.

(** [DocumentUploader.__init__]: the arguments fall back to the
    configuration, missing credentials or connection string raise
    [ValueError].  Building the S3 client and configuring the logger are
    taken to succeed; they set no field kept here. *)
Definition DocumentUploader_init (c : Config)
    (arg_access_key_id arg_secret_access_key arg_region arg_bucket_name arg_db : option string)
    : PyExc + DocumentUploader :=
  let key_id := py_or arg_access_key_id (AWS_ACCESS_KEY_ID c) in
  let secret := py_or arg_secret_access_key (AWS_SECRET_ACCESS_KEY c) in
  let region := py_or_str arg_region (AWS_REGION c) in
  let bucket := py_or_str arg_bucket_name (S3_BUCKET_NAME c) in
  let db :=
    if opt_truthy arg_db then inr (opt_str arg_db) else get_database_url c in
  match db with
  | inl e => inl e
  | inr dsn =>
      if negb (opt_truthy key_id && opt_truthy secret && negb (String.eqb region ""))
      then inl (mkExc ValueError "AWS credentials and region are required")
      else if String.eqb dsn ""
      then inl (mkExc ValueError "Database connection string is required")
      else inr {| aws_access_key_id := key_id;
                  aws_secret_access_key := secret;
                  aws_region := region;
                  s3_bucket_name := bucket;
                  db_connection_string := dsn;
                  supported_extensions := list_to_set (SUPPORTED_EXTENSIONS c) |}
  end.

(** ** The methods of [DocumentUploader] *)
Section Methods.

Variable w : World.
Variable self : DocumentUploader.

(** [Path.exists]: [os.stat] succeeded; a missing entry gives [False], any
    other failure propagates. *)
Definition Path_exists (p : string) : M bool :=
  match os_stat w p with
  | StatOk _ _ => ret true
  | StatMissing _ => ret false
  | StatError e => raise e
  end.

(** [Path.stat().st_size] *)
Definition Path_stat_size (p : string) : M Z :=
  match os_stat w p with
  | StatOk _ size => ret size
  | StatMissing e => raise e
  | StatError e => raise e
  end.

(** [uuid.uuid4()]: consumes the next 16 random bytes. *)
Definition uuid4 : M Z :=
  fun st => (Returned (Uuid.uuid4_int (os_urandom w (urandom_calls st))),
             {| trace := trace st;
                urandom_calls := S (urandom_calls st);
                documents := documents st |}).

(** [datetime.utcnow()] *)
Definition datetime_utcnow : M Z :=
  fun st => (Returned (utcnow w (List.length (trace st))), st).

(** [self.s3_client.upload_file(Filename, Bucket, Key)] *)
Definition s3_client_upload_file (Filename Bucket Key : string) : M unit :=
  emit (S3_upload_file Filename Bucket Key) ;;;
  fail_if (upload_file_exc w Filename Bucket Key).

(** [psycopg2.connect(dsn)] followed by [conn.cursor(...)] *)
Definition psycopg2_connect (dsn : string) : M unit :=
  emit (Pg_connect dsn) ;;;
  fail_if (connect_exc w dsn).

(** [cursor.execute(insert_query, params)]: the statement is
    [INSERT INTO documents (...) VALUES (...) RETURNING document_id], so
    on success the cursor holds one row with the inserted [document_id]. *)
Definition cursor_execute_insert (row : documents_row) : M (list Dict) :=
  emit (Pg_execute_insert row) ;;;
  fail_if (execute_exc w row) ;;;
  ret [ ({[ "document_id" := VStr (row_document_id row) ]} : Dict) ].

(** [conn.commit()]: the pending row becomes durable. *)
Definition conn_commit (pending : documents_row) : M unit :=
  emit Pg_commit ;;;
  fail_if (commit_exc w pending) ;;;
  (fun st => (Returned tt, {| trace := trace st;
                             urandom_calls := urandom_calls st;
                             documents := documents st ++ [pending] |})).

(** [cursor.fetchone()]: the next row of the result, [None] when there is
    none. *)
Definition cursor_fetchone (rows : list Dict) : option Dict := List.head rows.

(** [result['document_id']] on what [fetchone] returned. *)
Definition fetched_getitem (result : option Dict) (key : string) : M PyVal :=
  match result with
  | Some d => getitem d key
  | None => raise (mkExc TypeError "'NoneType' object is not subscriptable")
  end.

(** [cursor.close()] and [conn.close()] *)
Definition close_all : M unit := emit Pg_close.

Definition validate_file (file_path : string) : M Dict :=
  try_except
    (let path := PurePath.str file_path in
     ex <- Path_exists path ;;
     if negb ex then
       ret ({[ "valid" := VBool false;
               "error" := VStr "File does not exist" ]} : Dict)
     else
       let file_extension := PyStr.lower (PurePath.suffix file_path) in
       if negb (bool_decide (file_extension ∈ supported_extensions self)) then
         ret ({[ "valid" := VBool false;
                 "error" := VStr ("Unsupported file format. Supported formats: "
                                  ++ PyStr.join ", " (elements (supported_extensions self))) ]} : Dict)
       else
         file_size <- Path_stat_size path ;;
         let max_size := MAX_FILE_SIZE (config w) in
         if (file_size >? max_size)%Z then
           ret ({[ "valid" := VBool false;
                   "error" := VStr ("File too large. Maximum size: "
                                    ++ FloatFmt.mb0 max_size ++ "MB, Current size: "
                                    ++ FloatFmt.mb2 file_size ++ "MB") ]} : Dict)
         else
           let mime_type := guess_type w path in
           ret ({[ "valid" := VBool true;
                   "file_name" := VStr (PurePath.name file_path);
                   "file_extension" := VStr file_extension;
                   "file_size" := VInt file_size;
                   "mime_type" := of_optional mime_type;
                   "file_path" := VStr path ]} : Dict))
    (fun e =>
       ret ({[ "valid" := VBool false;
               "error" := VStr ("Validation error: " ++ exc_str e) ]} : Dict)).

Definition upload_to_s3 (file_path file_name : string) : M Dict :=
  try_except
    (s3_client_upload_file file_path (s3_bucket_name self) file_name ;;;
     let s3_url := "https://" ++ s3_bucket_name self ++ ".s3." ++ aws_region self
                   ++ ".amazonaws.com/" ++ file_name in
     ret ({[ "success" := VBool true;
             "s3_url" := VStr s3_url;
             "s3_key" := VStr file_name ]} : Dict))
    (fun e =>
       match exc_class e with
       | ClientError =>
           ret ({[ "success" := VBool false;
                   "error" := VStr ("S3 upload error: " ++ exc_str e) ]} : Dict)
       | _ =>
           ret ({[ "success" := VBool false;
                   "error" := VStr ("Upload error: " ++ exc_str e) ]} : Dict)
       end).

Definition save_to_database (file_metadata : Dict) (s3_url : PyVal) (user_id : string)
    : M Dict :=
  try_except
    (psycopg2_connect (db_connection_string self) ;;;
     u <- uuid4 ;;
     let document_id := Uuid.to_string u in
     file_name <- getitem file_metadata "file_name" ;;
     file_extension <- getitem file_metadata "file_extension" ;;
     file_size <- getitem file_metadata "file_size" ;;
     mime_type <- getitem file_metadata "mime_type" ;;
     now <- datetime_utcnow ;;
     let row := {| row_document_id := document_id;
                   row_user_id := user_id;
                   row_file_name := file_name;
                   row_file_extension := file_extension;
                   row_file_size := file_size;
                   row_mime_type := mime_type;
                   row_s3_url := s3_url;
                   row_upload_date := now;
                   row_status := "uploaded" |} in
     rows <- cursor_execute_insert row ;;
     conn_commit row ;;;
     let result := cursor_fetchone rows in
     close_all ;;;
     returned_id <- fetched_getitem result "document_id" ;;
     ret ({[ "success" := VBool true;
             "document_id" := returned_id;
             "message" := VStr "Document metadata saved successfully" ]} : Dict))
    (fun e =>
       ret ({[ "success" := VBool false;
               "error" := VStr ("Database error: " ++ exc_str e) ]} : Dict)).

Definition upload_document (file_path user_id : string) : M Dict :=
  try_except
    (validation_result <- validate_file file_path ;;
     valid <- getitem validation_result "valid" ;;
     if negb (truthy valid) then
       err <- getitem validation_result "error" ;;
       ret ({[ "success" := VBool false; "error" := err ]} : Dict)
     else
       file_extension <- getitem validation_result "file_extension" ;;
       u <- uuid4 ;;
       let unique_name := Uuid.to_string u ++ py_str file_extension in
       upload_result <- upload_to_s3 file_path unique_name ;;
       uploaded <- getitem upload_result "success" ;;
       if negb (truthy uploaded) then
         err <- getitem upload_result "error" ;;
         ret ({[ "success" := VBool false; "error" := err ]} : Dict)
       else
         s3_url <- getitem upload_result "s3_url" ;;
         db_result <- save_to_database validation_result s3_url user_id ;;
         saved <- getitem db_result "success" ;;
         if negb (truthy saved) then
           err <- getitem db_result "error" ;;
           ret ({[ "success" := VBool false; "error" := err ]} : Dict)
         else
           document_id <- getitem db_result "document_id" ;;
           file_name <- getitem validation_result "file_name" ;;
           s3_url' <- getitem upload_result "s3_url" ;;
           ret ({[ "success" := VBool true;
                   "document_id" := document_id;
                   "file_name" := file_name;
                   "s3_url" := s3_url';
                   "message" := VStr "Document uploaded successfully" ]} : Dict))
    (fun e =>
       ret ({[ "success" := VBool false;
               "error" := VStr ("Upload failed: " ++ exc_str e) ]} : Dict)).

End Methods.


(** ** Vocabulary of the specification *)

(** The dict shapes the methods build. *)
Definition invalid (msg : string) : Dict :=
  {[ "valid" := VBool false; "error" := VStr msg ]}.

Definition descriptor (name ext : string) (size : Z) (mime : option string)
    (path : string) : Dict :=
  {[ "valid" := VBool true;
     "file_name" := VStr name;
     "file_extension" := VStr ext;
     "file_size" := VInt size;
     "mime_type" := of_optional mime;
     "file_path" := VStr path ]}.

Definition failure (err : PyVal) : Dict :=
  {[ "success" := VBool false; "error" := err ]}.

Definition stored (url key : string) : Dict :=
  {[ "success" := VBool true; "s3_url" := VStr url; "s3_key" := VStr key ]}.

Definition saved (id : PyVal) : Dict :=
  {[ "success" := VBool true;
     "document_id" := id;
     "message" := VStr "Document metadata saved successfully" ]}.

Definition uploaded (id name url : PyVal) : Dict :=
  {[ "success" := VBool true;
     "document_id" := id;
     "file_name" := name;
     "s3_url" := url;
     "message" := VStr "Document uploaded successfully" ]}.

(** The three validation errors of the specification, as the results
    [validate_file] gives for them. *)
Definition NotFound : Dict := invalid "File does not exist".

Definition UnsupportedFormat (allowed : gset string) : Dict :=
  invalid ("Unsupported file format. Supported formats: "
           ++ PyStr.join ", " (elements allowed)).

Definition TooLarge (max_size file_size : Z) : Dict :=
  invalid ("File too large. Maximum size: " ++ FloatFmt.mb0 max_size
           ++ "MB, Current size: " ++ FloatFmt.mb2 file_size ++ "MB").

(** A result reports a size failure when its error text starts like the
    size message. *)
Definition fails_on_size (d : Dict) : bool :=
  match d !! "error" with
  | Some (VStr e) => String.prefix "File too large" e
  | _ => false
  end.

(** The extension [validate_file] works with. *)
Definition extension_of (file_path : string) : string :=
  PyStr.lower (PurePath.suffix file_path).

(** The URL [upload_to_s3] builds for a key. *)
Definition s3_url_of (self : DocumentUploader) (key : string) : string :=
  "https://" ++ s3_bucket_name self ++ ".s3." ++ aws_region self
  ++ ".amazonaws.com/" ++ key.

(** The next UUID string the random source yields in state [st]. *)
Definition next_uuid (w : World) (st : State) : string :=
  Uuid.to_string (Uuid.uuid4_int (os_urandom w (urandom_calls st))).

(** Events of a run: what the trace gained. *)
Definition new_events (before after : State) : list Event :=
  List.skipn (List.length (trace before)) (trace after).

Definition is_s3_event (ev : Event) : bool :=
  match ev with
  | S3_upload_file _ _ _ | S3_delete_object _ _ => true
  | _ => false
  end.

Definition is_pg_event (ev : Event) : bool := negb (is_s3_event ev).

(** Keys handed to [upload_file], in call order. *)
Fixpoint put_keys (evs : list Event) : list string :=
  match evs with
  | [] => []
  | S3_upload_file _ _ key :: evs' => key :: put_keys evs'
  | _ :: evs' => put_keys evs'
  end.

(** Number of [delete_object] calls for a key. *)
Fixpoint delete_calls (key : string) (evs : list Event) : nat :=
  match evs with
  | [] => 0
  | S3_delete_object _ k :: evs' =>
      (if String.eqb k key then 1 else 0) + delete_calls key evs'
  | _ :: evs' => delete_calls key evs'
  end.

(** Rows handed to the INSERT, in call order. *)
Fixpoint inserted_rows (evs : list Event) : list documents_row :=
  match evs with
  | [] => []
  | Pg_execute_insert row :: evs' => row :: inserted_rows evs'
  | _ :: evs' => inserted_rows evs'
  end.

(** The allow-set as the specification words it: every configured entry
    lowercased and given a leading separator. *)
Definition normalize_extension (entry : string) : string :=
  let e := PyStr.lower entry in
  match e with
  | String "." _ => e
  | _ => "." ++ e
  end.

Definition normalized_allow_set (value : string) : gset string :=
  list_to_set (List.map normalize_extension (PyStr.split "," value)).

(** What [validate_file] can return for a path, by cause. *)
Inductive Validation (w : World) (self : DocumentUploader) (file_path : string)
    : Dict -> Prop :=
  | V_missing e :
      os_stat w (PurePath.str file_path) = StatMissing e ->
      Validation w self file_path NotFound
  | V_stat_error e :
      os_stat w (PurePath.str file_path) = StatError e ->
      Validation w self file_path (invalid ("Validation error: " ++ exc_str e))
  | V_unsupported kind size :
      os_stat w (PurePath.str file_path) = StatOk kind size ->
      extension_of file_path ∉ supported_extensions self ->
      Validation w self file_path (UnsupportedFormat (supported_extensions self))
  | V_too_large kind size :
      os_stat w (PurePath.str file_path) = StatOk kind size ->
      extension_of file_path ∈ supported_extensions self ->
      (size > MAX_FILE_SIZE (config w))%Z ->
      Validation w self file_path (TooLarge (MAX_FILE_SIZE (config w)) size)
  | V_valid kind size :
      os_stat w (PurePath.str file_path) = StatOk kind size ->
      extension_of file_path ∈ supported_extensions self ->
      (size <= MAX_FILE_SIZE (config w))%Z ->
      Validation w self file_path
        (descriptor (PurePath.name file_path) (extension_of file_path) size
           (guess_type w (PurePath.str file_path)) (PurePath.str file_path)).

(** The row [save_to_database] builds. *)
Inductive SaveRow (w : World) (self : DocumentUploader) (file_metadata : Dict)
    (s3_url : PyVal) (user_id : string) (st : State)
    : documents_row -> Prop :=
  | Save_row name ext size mime :
      file_metadata !! "file_name" = Some name ->
      file_metadata !! "file_extension" = Some ext ->
      file_metadata !! "file_size" = Some size ->
      file_metadata !! "mime_type" = Some mime ->
      SaveRow w self file_metadata s3_url user_id st
        {| row_document_id := next_uuid w st;
           row_user_id := user_id;
           row_file_name := name;
           row_file_extension := ext;
           row_file_size := size;
           row_mime_type := mime;
           row_s3_url := s3_url;
           row_upload_date := utcnow w (S (List.length (trace st)));
           row_status := "uploaded" |}.

(** How one call of [save_to_database] can end, with the calls it made:
    the connection, the INSERT and the commit can each fail; the row is
    built after the connection from the next UUID, the metadata, the URL,
    the user and the clock. *)
Inductive SaveRun (w : World) (self : DocumentUploader) (file_metadata : Dict)
    (s3_url : PyVal) (user_id : string) (st : State)
    : Dict -> State -> Prop :=
  | Save_connect_failed e st' :
      connect_exc w (db_connection_string self) = Some e ->
      trace st' = (trace st ++ [Pg_connect (db_connection_string self)])%list ->
      urandom_calls st' = urandom_calls st ->
      documents st' = documents st ->
      SaveRun w self file_metadata s3_url user_id st
        (failure (VStr ("Database error: " ++ exc_str e))) st'
  | Save_key_error key st' :
      connect_exc w (db_connection_string self) = None ->
      file_metadata !! key = None ->
      trace st' = (trace st ++ [Pg_connect (db_connection_string self)])%list ->
      urandom_calls st' = S (urandom_calls st) ->
      documents st' = documents st ->
      SaveRun w self file_metadata s3_url user_id st
        (failure (VStr ("Database error: '" ++ key ++ "'"))) st'
  | Save_execute_failed row e st' :
      connect_exc w (db_connection_string self) = None ->
      SaveRow w self file_metadata s3_url user_id st row ->
      execute_exc w row = Some e ->
      trace st' = (trace st ++ [Pg_connect (db_connection_string self);
                               Pg_execute_insert row])%list ->
      urandom_calls st' = S (urandom_calls st) ->
      documents st' = documents st ->
      SaveRun w self file_metadata s3_url user_id st
        (failure (VStr ("Database error: " ++ exc_str e))) st'
  | Save_commit_failed row e st' :
      connect_exc w (db_connection_string self) = None ->
      SaveRow w self file_metadata s3_url user_id st row ->
      execute_exc w row = None ->
      commit_exc w row = Some e ->
      trace st' = (trace st ++ [Pg_connect (db_connection_string self);
                               Pg_execute_insert row; Pg_commit])%list ->
      urandom_calls st' = S (urandom_calls st) ->
      documents st' = documents st ->
      SaveRun w self file_metadata s3_url user_id st
        (failure (VStr ("Database error: " ++ exc_str e))) st'
  | Save_done row st' :
      connect_exc w (db_connection_string self) = None ->
      SaveRow w self file_metadata s3_url user_id st row ->
      execute_exc w row = None ->
      commit_exc w row = None ->
      trace st' = (trace st ++ [Pg_connect (db_connection_string self);
                               Pg_execute_insert row; Pg_commit; Pg_close])%list ->
      urandom_calls st' = S (urandom_calls st) ->
      documents st' = (documents st ++ [row])%list ->
      SaveRun w self file_metadata s3_url user_id st
        (saved (VStr (row_document_id row))) st'.

(** The text [upload_to_s3] reports for a failed [upload_file]. *)
Definition s3_error_text (e : PyExc) : string :=
  match exc_class e with
  | ClientError => "S3 upload error: " ++ exc_str e
  | _ => "Upload error: " ++ exc_str e
  end.

(** The state after the key was drawn and [upload_file] was called. *)
Definition after_put (self : DocumentUploader) (file_path key : string)
    (st : State) : State :=
  {| trace := trace st ++ [S3_upload_file file_path (s3_bucket_name self) key];
     urandom_calls := S (urandom_calls st);
     documents := documents st |}.

(** The terminal states of the pipeline. *)
Inductive Terminal : Type := Rejected | StorageFailed | RepositoryFailed | Done.

(** How one call of [upload_document] can end. *)
Inductive UploadRun (w : World) (self : DocumentUploader)
    (file_path user_id : string) (st : State)
    : Terminal -> Dict -> State -> Prop :=
  | Run_rejected msg :
      Validation w self file_path (invalid msg) ->
      UploadRun w self file_path user_id st Rejected (failure (VStr msg)) st
  | Run_storage_failed v e :
      Validation w self file_path v ->
      v !! "valid" = Some (VBool true) ->
      upload_file_exc w file_path (s3_bucket_name self)
        (next_uuid w st ++ extension_of file_path) = Some e ->
      UploadRun w self file_path user_id st StorageFailed
        (failure (VStr (s3_error_text e)))
        (after_put self file_path (next_uuid w st ++ extension_of file_path) st)
  | Run_repository_failed v err st' :
      Validation w self file_path v ->
      v !! "valid" = Some (VBool true) ->
      upload_file_exc w file_path (s3_bucket_name self)
        (next_uuid w st ++ extension_of file_path) = None ->
      SaveRun w self v
        (VStr (s3_url_of self (next_uuid w st ++ extension_of file_path))) user_id
        (after_put self file_path (next_uuid w st ++ extension_of file_path) st)
        (failure (VStr err)) st' ->
      UploadRun w self file_path user_id st RepositoryFailed
        (failure (VStr err)) st'
  | Run_done v id st' :
      Validation w self file_path v ->
      v !! "valid" = Some (VBool true) ->
      upload_file_exc w file_path (s3_bucket_name self)
        (next_uuid w st ++ extension_of file_path) = None ->
      SaveRun w self v
        (VStr (s3_url_of self (next_uuid w st ++ extension_of file_path))) user_id
        (after_put self file_path (next_uuid w st ++ extension_of file_path) st)
        (saved (VStr id)) st' ->
      UploadRun w self file_path user_id st Done
        (uploaded (VStr id) (VStr (PurePath.name file_path))
           (VStr (s3_url_of self (next_uuid w st ++ extension_of file_path))))
        st'.

(** A well-formed result: a failure with a non-empty error text, or a
    success whose three result fields are non-empty strings. *)
Definition nonempty_str (o : option PyVal) : bool :=
  match o with
  | Some (VStr s) => negb (String.eqb s "")
  | _ => false
  end.

Definition well_formed (d : Dict) : bool :=
  match d !! "success" with
  | Some (VBool false) => nonempty_str (d !! "error")
  | Some (VBool true) =>
      nonempty_str (d !! "document_id") && nonempty_str (d !! "file_name")
      && nonempty_str (d !! "s3_url")
  | _ => false
  end.

(** The compensation property as the specification words it, for one
    run: [delete_object] is called exactly once with the key of the put,
    and the run reports a failure. *)
Definition compensating_delete_once (w : World) (self : DocumentUploader)
    (file_path user_id : string) (st : State) : Prop :=
  let run := upload_document w self file_path user_id st in
  delete_calls (next_uuid w st ++ extension_of file_path)
    (new_events st (snd run)) = 1
  /\ exists d, fst run = Returned d /\ d !! "success" = Some (VBool false).

(** ** Sample worlds *)
Module Scenario.

Definition environ : gmap string string :=
  {[ "AWS_ACCESS_KEY_ID" := "AKIAEXAMPLE";
     "AWS_SECRET_ACCESS_KEY" := "secret";
     "RDS_HOST" := "db.example.org";
     "RDS_DB" := "syllabus";
     "RDS_USER" := "app";
     "RDS_PASSWORD" := "pw" ]}.

Definition cfg : Config := Config_load environ 5432 52428800.

Definition enoent : PyExc :=
  mkExc OSError "[Errno 2] No such file or directory".

Definition fs (p : string) : StatResult :=
  if String.eqb p "syllabus.pdf" then StatOk Regular 1024
  else if String.eqb p "Syllabus.PDF" then StatOk Regular 2048
  else if String.eqb p "notes.txt" then StatOk Regular 62914560
  else if String.eqb p "big.pdf" then StatOk Regular 62914560
  else if String.eqb p "edge.pdf" then StatOk Regular 52428800
  else if String.eqb p "docs.pdf" then StatOk Directory 4096
  else if String.eqb p "." then StatOk Directory 4096
  else StatMissing enoent.

Definition mime (p : string) : option string :=
  if String.eqb (PyStr.lower (PurePath.suffix p)) ".pdf" then Some "application/pdf" else None.

Definition world (c : Config) (s3 db_connect db_execute db_commit : option PyExc) : World :=
  {| config := c;
     os_stat := fs;
     guess_type := mime;
     os_urandom := fun n => (Z.of_nat n * 0x1000000010000000100000001 + 0x0123456789abcdef0123456789abcdef)%Z;
     utcnow := fun n => (1700000000 + Z.of_nat n)%Z;
     upload_file_exc := fun _ _ _ => s3;
     connect_exc := fun _ => db_connect;
     execute_exc := fun _ => db_execute;
     commit_exc := fun _ => db_commit |}.

Definition uploader_of (c : Config) : DocumentUploader :=
  match DocumentUploader_init c None None None None None with
  | inr u => u
  | inl _ => mkUploader None None "" "" "" ∅
  end.

Definition uploader : DocumentUploader := uploader_of cfg.

Definition st0 : State := {| trace := []; urandom_calls := 0; documents := [] |}.

(** The same environment with [SUPPORTED_EXTENSIONS=.PDF,doc]. *)
Definition environ_upper : gmap string string :=
  <[ "SUPPORTED_EXTENSIONS" := ".PDF,doc" ]> environ.

Definition cfg_upper : Config := Config_load environ_upper 5432 52428800.

Definition uploader_upper : DocumentUploader := uploader_of cfg_upper.

(** The same environment with [SUPPORTED_EXTENSIONS=.pdf,], whose second
    entry is empty, and a world whose [upload_file] fails on a path
    without a final component. *)
Definition cfg_empty_entry : Config :=
  Config_load (<[ "SUPPORTED_EXTENSIONS" := ".pdf," ]> environ) 5432 52428800.

Definition uploader_empty_entry : DocumentUploader := uploader_of cfg_empty_entry.

Definition world_empty_entry : World :=
  {| config := cfg_empty_entry;
     os_stat := fs;
     guess_type := mime;
     os_urandom := fun n => Z.of_nat n;
     utcnow := fun n => Z.of_nat n;
     upload_file_exc := fun p _ _ =>
       if String.eqb (PurePath.name p) ""
       then Some (mkExc OSError "[Errno 21] Is a directory")
       else None;
     connect_exc := fun _ => None;
     execute_exc := fun _ => None;
     commit_exc := fun _ => None |}.

End Scenario.

(** ** The rest of [config.py] and the script entry point *)

(** The attributes of [Config] that the uploader does not read. *)
Record ServiceConfig : Type := mkServiceConfig {
  OPENSEARCH_ENDPOINT : option string;
  OPENSEARCH_USERNAME : option string;
  OPENSEARCH_PASSWORD : option string;
  OPENSEARCH_INDEX : string;
  BEDROCK_MODEL_ID : string;
  BEDROCK_REGION : string;
  APP_ENV : string;
  LOG_LEVEL : string;
  SECRET_KEY : option string;
  ALLOWED_HOSTS : list string
}.

Definition ServiceConfig_load (environ : gmap string string) : ServiceConfig :=
  {| OPENSEARCH_ENDPOINT := getenv environ "OPENSEARCH_ENDPOINT";
     OPENSEARCH_USERNAME := getenv environ "OPENSEARCH_USERNAME";
     OPENSEARCH_PASSWORD := getenv environ "OPENSEARCH_PASSWORD";
     OPENSEARCH_INDEX := getenv_default environ "OPENSEARCH_INDEX" "embeddings";
     BEDROCK_MODEL_ID :=
       getenv_default environ "BEDROCK_MODEL_ID" "amazon.titan-embed-text-v1";
     BEDROCK_REGION := getenv_default environ "BEDROCK_REGION" "us-east-1";
     APP_ENV := getenv_default environ "APP_ENV" "development";
     LOG_LEVEL := getenv_default environ "LOG_LEVEL" "INFO";
     SECRET_KEY := getenv environ "SECRET_KEY";
     ALLOWED_HOSTS :=
       PyStr.split "," (getenv_default environ "ALLOWED_HOSTS" "localhost,127.0.0.1") |}.

(** Truth value of a [str]. *)
Definition str_truthy (s : string) : bool := negb (String.eqb s "").

(** [required_vars] of [validate_config], each name with the truth value
    of [getattr(cls, var)]. *)
Definition required_vars (c : Config) (sc : ServiceConfig) : list (string * bool) :=
  [ ("AWS_ACCESS_KEY_ID", opt_truthy (AWS_ACCESS_KEY_ID c));
    ("AWS_SECRET_ACCESS_KEY", opt_truthy (AWS_SECRET_ACCESS_KEY c));
    ("AWS_REGION", str_truthy (AWS_REGION c));
    ("S3_BUCKET_NAME", str_truthy (S3_BUCKET_NAME c));
    ("RDS_HOST", opt_truthy (RDS_HOST c));
    ("RDS_DB", opt_truthy (RDS_DB c));
    ("RDS_USER", opt_truthy (RDS_USER c));
    ("RDS_PASSWORD", opt_truthy (RDS_PASSWORD c));
    ("OPENSEARCH_ENDPOINT", opt_truthy (OPENSEARCH_ENDPOINT sc));
    ("OPENSEARCH_USERNAME", opt_truthy (OPENSEARCH_USERNAME sc));
    ("OPENSEARCH_PASSWORD", opt_truthy (OPENSEARCH_PASSWORD sc));
    ("BEDROCK_MODEL_ID", str_truthy (BEDROCK_MODEL_ID sc)) ].

(** The loop of [validate_config]: the names whose value is falsy, in the
    order of [required_vars]. *)
Fixpoint missing_vars (vars : list (string * bool)) : list string :=
  match vars with
  | [] => []
  | (var, set) :: vars' =>
      if set then missing_vars vars' else var :: missing_vars vars'
  end.

(** [Config.validate_config] *)
Definition validate_config (c : Config) (sc : ServiceConfig) : PyExc + bool :=
  match missing_vars (required_vars c sc) with
  | [] => inr true
  | missing =>
      inl (mkExc ValueError
             ("Missing required environment variables: " ++ PyStr.join ", " missing))
  end.

(** [Config.is_production] and [Config.is_development] *)
Definition is_production (sc : ServiceConfig) : bool :=
  String.eqb (PyStr.lower (APP_ENV sc)) "production".

Definition is_development (sc : ServiceConfig) : bool :=
  String.eqb (PyStr.lower (APP_ENV sc)) "development".




(** ** Further vocabulary *)

(** Whether a character occurs in a string. *)
Fixpoint has_char (c : ascii) (s : string) : bool :=
  match s with
  | EmptyString => false
  | String a s' => Ascii.eqb a c || has_char c s'
  end.

(** Number of [commit] calls. *)
Fixpoint commits (evs : list Event) : nat :=
  match evs with
  | [] => 0
  | Pg_commit :: evs' => S (commits evs')
  | _ :: evs' => commits evs'
  end.

(** The first of the four metadata keys, in the order the INSERT reads
    them, that a dict lacks. *)
Definition first_missing_key (file_metadata : Dict) : option string :=
  List.find (fun key => match file_metadata !! key with
                        | None => true
                        | Some _ => false
                        end)
    ["file_name"; "file_extension"; "file_size"; "mime_type"].

(** How the error texts of the three stages begin. *)
Definition stage_prefixes : list string :=
  ["File does not exist"; "Validation error: "; "Unsupported file format. ";
   "File too large. "; "S3 upload error: "; "Upload error: "; "Database error: "].

Definition from_a_stage (err : string) : bool :=
  List.existsb (fun p => String.prefix p err) stage_prefixes.

(** A sample service configuration and the sample world of the script. *)
Module Cases.



(** No credentials and no database settings at all. *)
Definition cfg_bare : Config := Config_load ∅ 5432 52428800.


(** A world in which [os.stat] is refused on ["locked/notes.txt"]. *)
Definition world_unreadable : World :=
  {| config := Scenario.cfg;
     os_stat := fun p =>
       if String.eqb p "locked/notes.txt"
       then StatError (mkExc OSError "[Errno 13] Permission denied")
       else Scenario.fs p;
     guess_type := Scenario.mime;
     os_urandom := fun n => Z.of_nat n;
     utcnow := fun n => Z.of_nat n;
     upload_file_exc := fun _ _ _ => None;
     connect_exc := fun _ => None;
     execute_exc := fun _ => None;
     commit_exc := fun _ => None |}.

(** Metadata that lacks ['file_size']. *)
Definition metadata_without_size : Dict :=
  {[ "file_name" := VStr "syllabus.pdf";
     "file_extension" := VStr ".pdf";
     "mime_type" := VNone ]}.

End Cases.

(** ** Properties *)

(** *** The embedding at work *)

Example split_keeps_empty_fields :
  PyStr.split "," ".pdf,.doc,.docx" = [".pdf"; ".doc"; ".docx"]
  /\ PyStr.split "," "" = [""]
  /\ PyStr.split "," "a,,b," = ["a"; ""; "b"; ""].
Proof. repeat split. Qed.

Example path_normal_form :
  List.map PurePath.str [""; "/"; "//srv/a"; "///a"; "a//b/./c.PDF/"; "a/.."]
  = ["."; "/"; "//srv/a"; "/a"; "a/b/c.PDF"; "a/.."].
Proof. reflexivity. Qed.

Example path_suffixes :
  List.map PurePath.suffix
    ["syllabus.pdf"; "x.tar.gz"; ".bashrc"; "a."; "dir.d/file"; "a/.x.PDF"; ".."; ""]
  = [".pdf"; ".gz"; ""; ""; ""; ".PDF"; ""; ""].
Proof. reflexivity. Qed.

Example uuid4_forces_version_and_variant :
  Uuid.to_string (Uuid.uuid4_int 0) = "00000000-0000-4000-8000-000000000000"
  /\ Uuid.to_string (Uuid.uuid4_int (2 ^ 128 - 1))
     = "ffffffff-ffff-4fff-bfff-ffffffffffff".
Proof. split; vm_compute; reflexivity. Qed.

Example megabytes_round_half_even :
  List.map FloatFmt.mb0 [52428800; 524288; 1572864; 2621440]%Z
  = ["50"; "0"; "2"; "2"]
  /\ List.map FloatFmt.mb2 [62914560; 1024; 131072; 393216]%Z
     = ["60.00"; "0.00"; "0.12"; "0.38"].
Proof. split; vm_compute; reflexivity. Qed.

(** A 1,024-byte [syllabus.pdf] for ["user123"] under the default
    configuration. *)
Example upload_of_syllabus :
  fst (upload_document (Scenario.world Scenario.cfg None None None None)
         Scenario.uploader "syllabus.pdf" "user123" Scenario.st0)
  = Returned
      (uploaded (VStr "01234568-89ab-4df0-8123-456889abcdf0")
         (VStr "syllabus.pdf")
         (VStr "https://syllabus-documents.s3.us-east-1.amazonaws.com/01234567-89ab-4def-8123-456789abcdef.pdf")).
Proof. vm_compute. reflexivity. Qed.

(** A 60 MB file against the 50 MB maximum: the message names both. *)
Example upload_of_large_file :
  fst (upload_document (Scenario.world Scenario.cfg None None None None)
         Scenario.uploader "big.pdf" "user123" Scenario.st0)
  = Returned
      (failure (VStr "File too large. Maximum size: 50MB, Current size: 60.00MB")).
Proof. vm_compute. reflexivity. Qed.

(** An unreachable database after a successful put: the put stays the
    only storage call. *)
Example upload_with_database_down :
  upload_document
    (Scenario.world Scenario.cfg None (Some (mkExc DatabaseError "timeout")) None None)
    Scenario.uploader "syllabus.pdf" "user123" Scenario.st0
  = (Returned (failure (VStr "Database error: timeout")),
     {| trace := [S3_upload_file "syllabus.pdf" "syllabus-documents"
                    "01234567-89ab-4def-8123-456789abcdef.pdf";
                  Pg_connect
                    "postgresql://app:pw@db.example.org:5432/syllabus?sslmode=require"];
        urandom_calls := 1;
        documents := [] |}).
Proof. vm_compute. reflexivity. Qed.


Lemma validate_file_spec w self file_path st :
  exists d, validate_file w self file_path st = (Returned d, st)
            /\ Validation w self file_path d.
Proof.
  unfold validate_file, try_except, bind, Path_exists, Path_stat_size.
  destruct (os_stat w (PurePath.str file_path)) as [kind size|e|e] eqn:Hstat.
  - unfold ret at 1. cbn [negb].
    destruct (bool_decide _) eqn:Hin; cbn [negb].
    + apply bool_decide_eq_true in Hin.
      unfold ret at 1.
      destruct (Z.gtb_spec size (MAX_FILE_SIZE (config w))) as [Hgt|Hle].
      * eexists; split; [reflexivity|]. eapply V_too_large; eauto. lia.
      * eexists; split; [reflexivity|]. eapply V_valid; eauto.
    + apply bool_decide_eq_false in Hin.
      eexists; split; [reflexivity|]. eapply V_unsupported; eauto.
  - eexists; split; [reflexivity|]. eapply V_missing; eauto.
  - eexists; split; [reflexivity|]. eapply V_stat_error; eauto.
Qed.

(** *** Running the monad *)

Lemma bind_returned {A B} (m : M A) (k : A -> M B) st a st' :
  m st = (Returned a, st') -> bind m k st = k a st'.
Proof. intros H. unfold bind. rewrite H. reflexivity. Qed.

Lemma bind_raised {A B} (m : M A) (k : A -> M B) st e st' :
  m st = (Raised e, st') -> bind m k st = (Raised e, st').
Proof. intros H. unfold bind. rewrite H. reflexivity. Qed.

Lemma try_except_returned {A} (body : M A) handler st a st' :
  body st = (Returned a, st') -> try_except body handler st = (Returned a, st').
Proof. intros H. unfold try_except. rewrite H. reflexivity. Qed.

Lemma try_except_raised {A} (body : M A) handler st e st' :
  body st = (Raised e, st') -> try_except body handler st = handler e st'.
Proof. intros H. unfold try_except. rewrite H. reflexivity. Qed.

Lemma getitem_some d key v st :
  d !! key = Some v -> getitem d key st = (Returned v, st).
Proof. intros H. unfold getitem. rewrite H. reflexivity. Qed.

Lemma getitem_none d key st :
  d !! key = None ->
  getitem d key st = (Raised (mkExc KeyError ("'" ++ key ++ "'")), st).
Proof. intros H. unfold getitem. rewrite H. reflexivity. Qed.

(** *** The three steps *)

Lemma upload_to_s3_spec w self file_path key st :
  upload_to_s3 w self file_path key st =
  (Returned
     match upload_file_exc w file_path (s3_bucket_name self) key with
     | None => stored (s3_url_of self key) key
     | Some e => failure (VStr (s3_error_text e))
     end,
   {| trace := trace st ++ [S3_upload_file file_path (s3_bucket_name self) key];
      urandom_calls := urandom_calls st;
      documents := documents st |}).
Proof.
  unfold upload_to_s3, try_except, bind, s3_client_upload_file, bind, emit, fail_if.
  destruct (upload_file_exc w file_path (s3_bucket_name self) key) as [[cls msg]|].
  - destruct cls; reflexivity.
  - reflexivity.
Qed.

Lemma save_to_database_spec w self file_metadata s3_url user_id st :
  exists d st',
    save_to_database w self file_metadata s3_url user_id st = (Returned d, st')
    /\ SaveRun w self file_metadata s3_url user_id st d st'.
Proof.
  unfold save_to_database, try_except, bind, psycopg2_connect, bind, emit, fail_if.
  destruct (connect_exc w (db_connection_string self)) as [e|] eqn:Hconn.
  { do 2 eexists. split; [reflexivity|]. eapply Save_connect_failed; eauto. }
  unfold ret at 1, uuid4 at 1. cbn [trace urandom_calls documents].
  unfold getitem.
  destruct (file_metadata !! "file_name") as [name|] eqn:Hname;
    [|do 2 eexists; split; [reflexivity|]; eapply Save_key_error; eauto].
  unfold ret at 1.
  destruct (file_metadata !! "file_extension") as [ext|] eqn:Hext;
    [|do 2 eexists; split; [reflexivity|]; eapply Save_key_error; eauto].
  unfold ret at 1.
  destruct (file_metadata !! "file_size") as [size|] eqn:Hsize;
    [|do 2 eexists; split; [reflexivity|]; eapply Save_key_error; eauto].
  unfold ret at 1.
  destruct (file_metadata !! "mime_type") as [mime|] eqn:Hmime;
    [|do 2 eexists; split; [reflexivity|]; eapply Save_key_error; eauto].
  unfold ret at 1, datetime_utcnow at 1, cursor_execute_insert, bind, emit.
  cbn [trace urandom_calls documents row_document_id].
  assert (Hrow : SaveRow w self file_metadata s3_url user_id st
            {| row_document_id := next_uuid w st;
               row_user_id := user_id;
               row_file_name := name;
               row_file_extension := ext;
               row_file_size := size;
               row_mime_type := mime;
               row_s3_url := s3_url;
               row_upload_date := utcnow w (S (List.length (trace st)));
               row_status := "uploaded" |}) by (constructor; assumption).
  replace (List.length (trace st ++ [Pg_connect (db_connection_string self)]))
    with (S (List.length (trace st)))
    by (rewrite List.length_app; cbn; lia).
  fold (next_uuid w st).
  set (row := {| row_document_id := next_uuid w st |}) in *.
  unfold fail_if.
  destruct (execute_exc w row) as [e|] eqn:Hexec.
  { do 2 eexists. split; [reflexivity|].
    eapply Save_execute_failed; eauto. cbn. rewrite <- app_assoc. reflexivity. }
  unfold ret at 1, conn_commit, bind, emit, fail_if.
  cbn [trace urandom_calls documents].
  destruct (commit_exc w row) as [e|] eqn:Hcommit.
  { do 2 eexists. split; [reflexivity|].
    eapply Save_commit_failed; eauto. cbn. rewrite <- !app_assoc. reflexivity. }
  do 2 eexists. split; [reflexivity|].
  apply Save_done with (row := row); auto.
  cbn. rewrite <- !app_assoc. reflexivity.
Qed.

(** *** The pipeline *)

Lemma uuid4_run w st :
  uuid4 w st =
  (Returned (Uuid.uuid4_int (os_urandom w (urandom_calls st))),
   {| trace := trace st; urandom_calls := S (urandom_calls st);
      documents := documents st |}).
Proof. reflexivity. Qed.

Ltac run_step :=
  first
    [ erewrite bind_returned;
      [ cbv beta
      | solve [ eassumption
              | apply getitem_some; first [eassumption | reflexivity]
              | apply uuid4_run
              | apply upload_to_s3_spec ] ]
    | apply try_except_returned ].

Lemma upload_document_invalid w self file_path user_id st msg :
  validate_file w self file_path st = (Returned (invalid msg), st) ->
  upload_document w self file_path user_id st
  = (Returned (failure (VStr msg)), st).
Proof.
  intros Hv. unfold upload_document.
  run_step. run_step. run_step. cbn [truthy negb]. run_step. reflexivity.
Qed.

Lemma descriptor_valid name ext size mime path :
  descriptor name ext size mime path !! "valid" = Some (VBool true).
Proof. reflexivity. Qed.

Lemma invalid_valid msg : invalid msg !! "valid" = Some (VBool false).
Proof. reflexivity. Qed.

Lemma invalid_error msg : invalid msg !! "error" = Some (VStr msg).
Proof. reflexivity. Qed.

Lemma stored_success url key : stored url key !! "success" = Some (VBool true).
Proof. reflexivity. Qed.

Lemma failure_success err : failure err !! "success" = Some (VBool false).
Proof. reflexivity. Qed.

Lemma failure_error err : failure err !! "error" = Some err.
Proof. reflexivity. Qed.

Lemma saved_success id : saved id !! "success" = Some (VBool true).
Proof. reflexivity. Qed.

(** A result of [validate_file] that says valid is the descriptor of an
    existing entry with an allowed extension and an allowed size. *)
Lemma Validation_valid w self file_path v :
  Validation w self file_path v ->
  v !! "valid" = Some (VBool true) ->
  exists kind size,
    os_stat w (PurePath.str file_path) = StatOk kind size
    /\ extension_of file_path ∈ supported_extensions self
    /\ (size <= MAX_FILE_SIZE (config w))%Z
    /\ v = descriptor (PurePath.name file_path) (extension_of file_path) size
             (guess_type w (PurePath.str file_path)) (PurePath.str file_path).
Proof.
  intros HV Hvalid.
  destruct HV as [e Hs|e Hs|kind size Hs Hout|kind size Hs Hin Hgt|kind size Hs Hin Hle];
    try (unfold NotFound, UnsupportedFormat, TooLarge in Hvalid;
         rewrite invalid_valid in Hvalid; discriminate Hvalid).
  exists kind, size. auto.
Qed.

(** A result that says invalid carries one of the four error texts. *)
Lemma Validation_invalid w self file_path v :
  Validation w self file_path v ->
  v !! "valid" = Some (VBool false) ->
  exists msg, v = invalid msg /\ msg <> "".
Proof.
  intros HV Hvalid.
  destruct HV as [e Hs|e Hs|kind size Hs Hout|kind size Hs Hin Hgt|kind size Hs Hin Hle];
    try (rewrite descriptor_valid in Hvalid; discriminate Hvalid);
    eexists; (split; [reflexivity | discriminate]).
Qed.

Lemma validate_file_fst w self file_path st v :
  fst (validate_file w self file_path st) = Returned v ->
  validate_file w self file_path st = (Returned v, st)
  /\ Validation w self file_path v.
Proof.
  intros H. destruct (validate_file_spec w self file_path st) as [d [Hd HV]].
  rewrite Hd in H. cbn in H. injection H as <-. auto.
Qed.

Lemma upload_document_storage_failed w self file_path user_id st name ext size
    mime path e :
  validate_file w self file_path st
  = (Returned (descriptor name ext size mime path), st) ->
  upload_file_exc w file_path (s3_bucket_name self) (next_uuid w st ++ ext)
  = Some e ->
  upload_document w self file_path user_id st
  = (Returned (failure (VStr (s3_error_text e))),
     after_put self file_path (next_uuid w st ++ ext) st).
Proof.
  intros Hv Hput. unfold upload_document.
  run_step. run_step. run_step. cbn [truthy negb].
  run_step. run_step. cbn [py_str]. run_step.
  fold (next_uuid w st). rewrite Hput.
  run_step. cbn [truthy negb]. run_step. reflexivity.
Qed.

Lemma upload_document_persisting w self file_path user_id st name ext size
    mime path db st' (b : bool) :
  validate_file w self file_path st
  = (Returned (descriptor name ext size mime path), st) ->
  upload_file_exc w file_path (s3_bucket_name self) (next_uuid w st ++ ext)
  = None ->
  save_to_database w self (descriptor name ext size mime path)
    (VStr (s3_url_of self (next_uuid w st ++ ext))) user_id
    (after_put self file_path (next_uuid w st ++ ext) st) = (Returned db, st') ->
  db !! "success" = Some (VBool b) ->
  (if b then exists id, db !! "document_id" = Some id
   else exists err, db !! "error" = Some err) ->
  upload_document w self file_path user_id st
  = (Returned
       (if b
        then uploaded (default VNone (db !! "document_id")) (VStr name)
               (VStr (s3_url_of self (next_uuid w st ++ ext)))
        else failure (default VNone (db !! "error"))),
     st').
Proof.
  intros Hv Hput Hsave Hb Hfield. unfold upload_document.
  run_step. run_step. run_step. cbn [truthy negb].
  run_step. run_step. cbn [py_str]. run_step.
  fold (next_uuid w st). rewrite Hput.
  run_step. cbn [truthy negb]. run_step.
  erewrite bind_returned by exact Hsave. cbv beta.
  run_step. destruct b; cbn [truthy negb].
  - destruct Hfield as [id Hid]. rewrite Hid.
    run_step. run_step. run_step. reflexivity.
  - destruct Hfield as [err Herr]. rewrite Herr.
    run_step. reflexivity.
Qed.

(** Every run of [upload_document] returns, in one of the four terminal
    states. *)
Lemma upload_document_spec w self file_path user_id st :
  exists t d st',
    upload_document w self file_path user_id st = (Returned d, st')
    /\ UploadRun w self file_path user_id st t d st'.
Proof.
  destruct (validate_file_spec w self file_path st) as [v [Hv HV]].
  destruct (v !! "valid") as [[| [|] | |]|] eqn:Hvalid.
  all: try (exfalso; destruct HV;
            unfold NotFound, UnsupportedFormat, TooLarge in Hvalid;
            rewrite ?invalid_valid, ?descriptor_valid in Hvalid;
            discriminate Hvalid).
  - destruct (Validation_valid _ _ _ _ HV Hvalid)
      as [kind [size [Hs [Hin [Hle Hd]]]]].
    set (key := next_uuid w st ++ extension_of file_path).
    destruct (upload_file_exc w file_path (s3_bucket_name self) key) as [e|] eqn:Hput.
    + exists StorageFailed, (failure (VStr (s3_error_text e))),
        (after_put self file_path key st).
      split; [|eapply Run_storage_failed; eauto].
      rewrite Hd in Hv. eapply upload_document_storage_failed; eauto.
    + destruct (save_to_database_spec w self v (VStr (s3_url_of self key)) user_id
                  (after_put self file_path key st)) as [db [st' [Hsave HS]]].
      assert (Hshape : (exists err, db = failure (VStr err))
                       \/ (exists id, db = saved (VStr id))).
      { destruct HS; eauto. }
      destruct Hshape as [[err ->]|[id ->]].
      * exists RepositoryFailed, (failure (VStr err)), st'.
        split; [|eapply Run_repository_failed; eauto].
        rewrite Hd in Hv, Hsave.
        apply (upload_document_persisting _ _ _ _ _ _ _ _ _ _ _ _ false Hv Hput Hsave);
          [reflexivity | eexists; reflexivity].
      * exists Done,
          (uploaded (VStr id) (VStr (PurePath.name file_path))
             (VStr (s3_url_of self key))), st'.
        split; [|eapply Run_done; eauto].
        rewrite Hd in Hv, Hsave.
        apply (upload_document_persisting _ _ _ _ _ _ _ _ _ _ _ _ true Hv Hput Hsave);
          [reflexivity | eexists; reflexivity].
  - destruct (Validation_invalid _ _ _ _ HV Hvalid) as [msg [-> Hmsg]].
    exists Rejected, (failure (VStr msg)), st. split.
    + apply upload_document_invalid, Hv.
    + apply Run_rejected, HV.
Qed.

(** *** Shape of the generated UUID strings *)

Lemma is_hex_hex_digit d : Uuid.is_hex (Uuid.hex_digit d) = true.
Proof.
  unfold Uuid.hex_digit.
  destruct (Z.to_nat d) as [|[|[|[|[|[|[|[|[|[|[|[|[|[|[|[|n]]]]]]]]]]]]]]]];
    reflexivity.
Qed.

Lemma small_index n : (0 <= n < 4 -> n = 0 \/ n = 1 \/ n = 2 \/ n = 3)%Z.
Proof. lia. Qed.

Ltac uuid_bits r :=
  unfold Uuid.uuid4_int; cbv zeta;
  repeat first [ rewrite Z.lor_spec | rewrite Z.land_spec
               | rewrite Z.lnot_spec by lia | rewrite Z.shiftr_spec by lia ];
  repeat match goal with
         | |- context [Z.testbit (r mod 2 ^ 128) ?k] =>
             generalize (Z.testbit (r mod 2 ^ 128) k); intros []
         end;
  reflexivity.

(** Bits 76 to 79 hold the version number 4. *)
Lemma version_nibble r : Z.land (Z.shiftr (Uuid.uuid4_int r) 76) 15 = 4%Z.
Proof.
  apply Z.bits_inj'. intros n Hn.
  destruct (Z_lt_le_dec n 4) as [Hlt|Hge].
  - destruct (small_index n ltac:(lia)) as [-> | [-> | [-> | ->]]]; uuid_bits r.
  - rewrite Z.land_spec.
    rewrite (Z.bits_above_log2 15 n), (Z.bits_above_log2 4 n) by (cbn; lia).
    apply andb_false_r.
Qed.

(** Bits 62 and 63 hold the variant 10, bits 60 and 61 stay random. *)
Lemma variant_nibble r :
  exists x, (0 <= x < 4)%Z
            /\ Z.land (Z.shiftr (Uuid.uuid4_int r) 60) 15 = Z.lor 8 x.
Proof.
  exists (Z.land (Z.shiftr (r mod 2 ^ 128) 60) 3). split.
  - change 3%Z with (Z.ones 2). rewrite Z.land_ones by lia.
    apply Z.mod_pos_bound. lia.
  - apply Z.bits_inj'. intros n Hn.
    destruct (Z_lt_le_dec n 4) as [Hlt|Hge].
    + destruct (small_index n ltac:(lia)) as [-> | [-> | [-> | ->]]]; uuid_bits r.
    + rewrite Z.land_spec, Z.lor_spec, Z.land_spec.
      rewrite (Z.bits_above_log2 15 n), (Z.bits_above_log2 8 n),
        (Z.bits_above_log2 3 n) by (cbn; lia).
      rewrite !andb_false_r. reflexivity.
Qed.

Ltac merge_shifts :=
  repeat match goal with
         | |- context [Z.shiftr (Z.shiftr ?a ?m) ?n] =>
             rewrite (Z.shiftr_shiftr a m n) by lia;
             let s := eval vm_compute in (m + n)%Z in
             change (m + n)%Z with s
         end.

Lemma uuid4_string_shape r :
  Uuid.is_uuid4_string (Uuid.to_string (Uuid.uuid4_int r)) = true.
Proof.
  pose proof (version_nibble r) as Hver.
  destruct (variant_nibble r) as [x [Hx Hvar]].
  set (i := Uuid.uuid4_int r) in *.
  cbv beta iota zeta delta
    [Uuid.is_uuid4_string Uuid.to_string Uuid.hex String.append String.substring
     String.length Nat.eqb Uuid.shape_from orb andb].
  rewrite !is_hex_hex_digit.
  merge_shifts.
  rewrite Hver, Hvar.
  destruct (small_index x Hx) as [-> | [-> | [-> | ->]]]; reflexivity.
Qed.

Lemma next_uuid_shape w st : Uuid.is_uuid4_string (next_uuid w st) = true.
Proof. apply uuid4_string_shape. Qed.

Lemma uuid4_string_nonempty s : Uuid.is_uuid4_string s = true -> s <> "".
Proof. intros H ->. discriminate H. Qed.

(** *** Traces *)

Lemma new_events_app st st' evs :
  trace st' = (trace st ++ evs)%list -> new_events st st' = evs.
Proof. intros H. unfold new_events. rewrite H. apply drop_app_length. Qed.

Lemma new_events_same st : new_events st st = [].
Proof.
  apply new_events_app. symmetry. apply app_nil_r.
Qed.

(** Every call of [upload_to_s3] shows in the trace as one [upload_file]. *)
Lemma upload_to_s3_is_traced w self file_path key st :
  new_events st (snd (upload_to_s3 w self file_path key st))
  = [S3_upload_file file_path (s3_bucket_name self) key].
Proof. rewrite upload_to_s3_spec. apply new_events_app. reflexivity. Qed.

(** What [save_to_database] adds to the trace: database calls only, the
    first of which is the connection. *)
Lemma SaveRun_events w self file_metadata s3_url user_id st d st' :
  SaveRun w self file_metadata s3_url user_id st d st' ->
  exists evs,
    trace st' = (trace st ++ Pg_connect (db_connection_string self) :: evs)%list
    /\ forallb is_pg_event evs = true.
Proof.
  intros H. destruct H; eexists; (split; [eassumption | reflexivity]).
Qed.

(** Every call of [save_to_database] shows in the trace, starting with
    [connect]. *)
Lemma save_to_database_is_traced w self file_metadata s3_url user_id st :
  exists evs,
    new_events st (snd (save_to_database w self file_metadata s3_url user_id st))
    = Pg_connect (db_connection_string self) :: evs.
Proof.
  destruct (save_to_database_spec w self file_metadata s3_url user_id st)
    as [d [st' [Hrun HS]]].
  destruct (SaveRun_events _ _ _ _ _ _ _ _ HS) as [evs [Ht _]].
  exists evs. rewrite Hrun. apply new_events_app. exact Ht.
Qed.

Lemma pg_events_no_put evs :
  forallb is_pg_event evs = true -> put_keys evs = [].
Proof.
  induction evs as [|ev evs IH]; [reflexivity|].
  cbn [forallb]. intros H. apply andb_prop in H as [Hev Hevs].
  destruct ev; try discriminate Hev; cbn [put_keys]; auto.
Qed.

Lemma pg_events_no_delete key evs :
  forallb is_pg_event evs = true -> delete_calls key evs = 0.
Proof.
  induction evs as [|ev evs IH]; [reflexivity|].
  cbn [forallb]. intros H. apply andb_prop in H as [Hev Hevs].
  destruct ev; try discriminate Hev; cbn [delete_calls]; auto.
Qed.

(** ** The properties of the specification *)

(** C3. When validation fails, [upload_document] returns [success=False]
    with the error text of [validate_file] unchanged, and the state is the
    one it started from: the trace gained no event, so neither
    [upload_to_s3] nor [save_to_database] was invoked. *)
Theorem validation_failure_returned_verbatim w self file_path user_id st d :
  fst (validate_file w self file_path st) = Returned d ->
  d !! "valid" = Some (VBool false) ->
  exists err,
    d !! "error" = Some (VStr err)
    /\ upload_document w self file_path user_id st
       = (Returned (failure (VStr err)), st)
    /\ new_events st (snd (upload_document w self file_path user_id st)) = [].
Proof.
  intros Hd Hvalid.
  destruct (validate_file_fst _ _ _ _ _ Hd) as [Hv HV].
  destruct (Validation_invalid _ _ _ _ HV Hvalid) as [msg [-> _]].
  exists msg. split; [apply invalid_error|].
  rewrite (upload_document_invalid _ _ _ user_id _ _ Hv).
  split; [reflexivity | apply new_events_same].
Qed.

Lemma validation_failure_returned_verbatim_witness :
  exists err,
    UnsupportedFormat (supported_extensions Scenario.uploader) !! "error"
    = Some (VStr err)
    /\ upload_document (Scenario.world Scenario.cfg None None None None)
         Scenario.uploader "notes.txt" "user123" Scenario.st0
       = (Returned (failure (VStr err)), Scenario.st0)
    /\ new_events Scenario.st0
         (snd (upload_document (Scenario.world Scenario.cfg None None None None)
                 Scenario.uploader "notes.txt" "user123" Scenario.st0)) = [].
Proof.
  apply (validation_failure_returned_verbatim
           (Scenario.world Scenario.cfg None None None None)
           Scenario.uploader "notes.txt" "user123" Scenario.st0
           (UnsupportedFormat (supported_extensions Scenario.uploader))).
  - vm_compute. reflexivity.
  - vm_compute. reflexivity.
Defined.

(** C2. When [upload_to_s3] returns a failure, [upload_document] returns
    [success=False] with that storage error, and the only call the run
    made is the [upload_file]: no database call is in the trace, so
    [save_to_database] was not invoked, and no row was written. *)
Theorem storage_failure_skips_repository w self file_path user_id st v r st1 :
  fst (validate_file w self file_path st) = Returned v ->
  v !! "valid" = Some (VBool true) ->
  upload_to_s3 w self file_path (next_uuid w st ++ extension_of file_path)
    (snd (uuid4 w st)) = (Returned r, st1) ->
  r !! "success" = Some (VBool false) ->
  exists err,
    r !! "error" = Some err
    /\ upload_document w self file_path user_id st = (Returned (failure err), st1)
    /\ new_events st st1
       = [S3_upload_file file_path (s3_bucket_name self)
            (next_uuid w st ++ extension_of file_path)]
    /\ documents st1 = documents st.
Proof.
  intros Hd Hvalid Hput Hfail.
  destruct (validate_file_fst _ _ _ _ _ Hd) as [Hv HV].
  destruct (Validation_valid _ _ _ _ HV Hvalid) as [kind [size [_ [_ [_ ->]]]]].
  rewrite upload_to_s3_spec in Hput.
  injection Hput as Hr Hst1.
  destruct (upload_file_exc w file_path (s3_bucket_name self)
              (next_uuid w st ++ extension_of file_path)) as [e|] eqn:Hexc.
  - subst r. exists (VStr (s3_error_text e)).
    split; [apply failure_error|].
    rewrite (upload_document_storage_failed _ _ _ user_id _ _ _ _ _ _ _ Hv Hexc).
    subst st1. repeat split. apply new_events_app. reflexivity.
  - subst r. rewrite stored_success in Hfail. discriminate Hfail.
Qed.

Lemma storage_failure_skips_repository_witness :
  exists err,
    failure (VStr "S3 upload error: denied") !! "error" = Some err
    /\ upload_document
         (Scenario.world Scenario.cfg (Some (mkExc ClientError "denied")) None None None)
         Scenario.uploader "syllabus.pdf" "user123" Scenario.st0
       = (Returned (failure err),
          after_put Scenario.uploader "syllabus.pdf"
            "01234567-89ab-4def-8123-456789abcdef.pdf" Scenario.st0)
    /\ new_events Scenario.st0
         (after_put Scenario.uploader "syllabus.pdf"
            "01234567-89ab-4def-8123-456789abcdef.pdf" Scenario.st0)
       = [S3_upload_file "syllabus.pdf" (s3_bucket_name Scenario.uploader)
            "01234567-89ab-4def-8123-456789abcdef.pdf"]
    /\ documents
         (after_put Scenario.uploader "syllabus.pdf"
            "01234567-89ab-4def-8123-456789abcdef.pdf" Scenario.st0)
       = documents Scenario.st0.
Proof.
  apply (storage_failure_skips_repository
           (Scenario.world Scenario.cfg (Some (mkExc ClientError "denied")) None None None)
           Scenario.uploader "syllabus.pdf" "user123" Scenario.st0
           (descriptor "syllabus.pdf" ".pdf" 1024 (Some "application/pdf") "syllabus.pdf")
           (failure (VStr "S3 upload error: denied"))).
  - vm_compute. reflexivity.
  - vm_compute. reflexivity.
  - vm_compute. reflexivity.
  - vm_compute. reflexivity.
Defined.

(** C1, as worded, at a concrete run: [upload_file] succeeds, the commit
    fails, and the property "delete is invoked exactly once with the key
    of the put" does not hold: the run calls [delete_object] zero times. *)
Lemma compensating_delete_missing :
  let w := Scenario.world Scenario.cfg None None None
             (Some (mkExc DatabaseError "connection lost")) in
  let key := "01234567-89ab-4def-8123-456789abcdef.pdf" in
  let url := "https://syllabus-documents.s3.us-east-1.amazonaws.com/" ++ key in
  fst (upload_to_s3 w Scenario.uploader "syllabus.pdf" key
         (snd (uuid4 w Scenario.st0)))
  = Returned (stored url key)
  /\ fst (save_to_database w Scenario.uploader
            (descriptor "syllabus.pdf" ".pdf" 1024 (Some "application/pdf")
               "syllabus.pdf")
            (VStr url) "user123"
            (after_put Scenario.uploader "syllabus.pdf" key Scenario.st0))
     = Returned (failure (VStr "Database error: connection lost"))
  /\ ~ compensating_delete_once w Scenario.uploader "syllabus.pdf" "user123"
         Scenario.st0.
Proof.
  cbv zeta. split; [vm_compute; reflexivity|].
  split; [vm_compute; reflexivity|].
  intros [Hdel _]. vm_compute in Hdel. discriminate Hdel.
Qed.

(** C1, amended. When [upload_to_s3] succeeds and [save_to_database]
    then fails, [upload_document] returns [success=False] with the
    database error, the run made one [upload_file] call, with the
    generated key, and no [delete_object] call for any key. *)
Theorem repository_failure_reported_without_delete
    w self file_path user_id st v r st1 url db st2 :
  fst (validate_file w self file_path st) = Returned v ->
  v !! "valid" = Some (VBool true) ->
  upload_to_s3 w self file_path (next_uuid w st ++ extension_of file_path)
    (snd (uuid4 w st)) = (Returned r, st1) ->
  r !! "success" = Some (VBool true) ->
  r !! "s3_url" = Some url ->
  save_to_database w self v url user_id st1 = (Returned db, st2) ->
  db !! "success" = Some (VBool false) ->
  exists err,
    db !! "error" = Some (VStr err)
    /\ upload_document w self file_path user_id st
       = (Returned (failure (VStr err)), st2)
    /\ put_keys (new_events st st2) = [next_uuid w st ++ extension_of file_path]
    /\ forall key, delete_calls key (new_events st st2) = 0.
Proof.
  intros Hd Hvalid Hput Hok Hurl Hsave Hfail.
  destruct (validate_file_fst _ _ _ _ _ Hd) as [Hv HV].
  destruct (Validation_valid _ _ _ _ HV Hvalid) as [kind [size [_ [_ [_ ->]]]]].
  set (key := next_uuid w st ++ extension_of file_path) in *.
  rewrite upload_to_s3_spec in Hput.
  injection Hput as Hr Hst1.
  destruct (upload_file_exc w file_path (s3_bucket_name self) key) as [e|] eqn:Hexc;
    subst r; [rewrite failure_success in Hok; discriminate Hok|].
  assert (url = VStr (s3_url_of self key)) as -> by
    (change (Some (VStr (s3_url_of self key)) = Some url) in Hurl; congruence).
  change (snd (uuid4 w st)) with
    {| trace := trace st; urandom_calls := S (urandom_calls st);
       documents := documents st |} in Hst1.
  cbn [trace urandom_calls documents] in Hst1.
  change {| trace := (trace st ++ [S3_upload_file file_path (s3_bucket_name self) key])%list;
            urandom_calls := S (urandom_calls st);
            documents := documents st |}
    with (after_put self file_path key st) in Hst1.
  subst st1.
  destruct (save_to_database_spec w self
              (descriptor (PurePath.name file_path) (extension_of file_path) size
                 (guess_type w (PurePath.str file_path)) (PurePath.str file_path))
              (VStr (s3_url_of self key)) user_id
              (after_put self file_path key st)) as [db' [st' [Hsave' HS]]].
  rewrite Hsave in Hsave'. injection Hsave' as <- <-.
  destruct (SaveRun_events _ _ _ _ _ _ _ _ HS) as [evs [Htrace Hpg]].
  assert (Hshape : exists err, db = failure (VStr err)).
  { destruct HS; eauto. rewrite saved_success in Hfail. discriminate Hfail. }
  destruct Hshape as [err ->].
  exists err. split; [apply failure_error|]. split.
  - apply (upload_document_persisting _ _ _ _ _ _ _ _ _ _ _ _ false Hv Hexc Hsave);
      [reflexivity | eexists; reflexivity].
  - assert (Hnew : new_events st st2
                   = S3_upload_file file_path (s3_bucket_name self) key
                     :: Pg_connect (db_connection_string self) :: evs).
    { apply new_events_app. rewrite Htrace. cbn [after_put trace].
      rewrite <- app_assoc. reflexivity. }
    rewrite Hnew. split.
    + cbn [put_keys]. rewrite (pg_events_no_put _ Hpg). reflexivity.
    + intros k. cbn [delete_calls]. apply pg_events_no_delete, Hpg.
Qed.

Lemma repository_failure_reported_without_delete_witness :
  let w := Scenario.world Scenario.cfg None None None
             (Some (mkExc DatabaseError "connection lost")) in
  let run := upload_document w Scenario.uploader "syllabus.pdf" "user123"
               Scenario.st0 in
  exists err,
    failure (VStr "Database error: connection lost") !! "error" = Some (VStr err)
    /\ run = (Returned (failure (VStr err)), snd run)
    /\ put_keys (new_events Scenario.st0 (snd run))
       = ["01234567-89ab-4def-8123-456789abcdef.pdf"]
    /\ forall key, delete_calls key (new_events Scenario.st0 (snd run)) = 0.
Proof.
  cbv zeta.
  apply (repository_failure_reported_without_delete
           (Scenario.world Scenario.cfg None None None
              (Some (mkExc DatabaseError "connection lost")))
           Scenario.uploader "syllabus.pdf" "user123" Scenario.st0
           (descriptor "syllabus.pdf" ".pdf" 1024 (Some "application/pdf") "syllabus.pdf")
           (stored "https://syllabus-documents.s3.us-east-1.amazonaws.com/01234567-89ab-4def-8123-456789abcdef.pdf"
              "01234567-89ab-4def-8123-456789abcdef.pdf")
           (after_put Scenario.uploader "syllabus.pdf"
              "01234567-89ab-4def-8123-456789abcdef.pdf" Scenario.st0)
           (VStr "https://syllabus-documents.s3.us-east-1.amazonaws.com/01234567-89ab-4def-8123-456789abcdef.pdf")
           (failure (VStr "Database error: connection lost"))).
  - vm_compute. reflexivity.
  - vm_compute. reflexivity.
  - vm_compute. reflexivity.
  - vm_compute. reflexivity.
  - vm_compute. reflexivity.
  - vm_compute. reflexivity.
  - vm_compute. reflexivity.
Defined.

(** *** Inversion of results *)

Lemma failure_inj a b : failure a = failure b -> a = b.
Proof.
  intros H. apply (f_equal (fun d : Dict => d !! "error")) in H.
  rewrite !failure_error in H. congruence.
Qed.

Lemma saved_inj a b : saved a = saved b -> a = b.
Proof.
  intros H. apply (f_equal (fun d : Dict => d !! "document_id")) in H.
  change (Some a = Some b) in H. congruence.
Qed.

Lemma invalid_inj a b : invalid a = invalid b -> a = b.
Proof.
  intros H. apply (f_equal (fun d : Dict => d !! "error")) in H.
  rewrite !invalid_error in H. congruence.
Qed.

Lemma failure_not_saved a b : failure a <> saved b.
Proof.
  intros H. apply (f_equal (fun d : Dict => d !! "success")) in H.
  rewrite failure_success, saved_success in H. discriminate H.
Qed.

Lemma invalid_not_descriptor msg name ext size mime path :
  invalid msg <> descriptor name ext size mime path.
Proof.
  intros H. apply (f_equal (fun d : Dict => d !! "valid")) in H.
  rewrite invalid_valid, descriptor_valid in H. discriminate H.
Qed.

(** A failed [save_to_database] reports a non-empty database error. *)
Lemma SaveRun_failed w self file_metadata s3_url user_id st err st' :
  SaveRun w self file_metadata s3_url user_id st (failure err) st' ->
  exists msg, err = VStr ("Database error: " ++ msg).
Proof.
  intros H. remember (failure err) as d eqn:Hd.
  destruct H; try (apply failure_inj in Hd; subst err; eexists; reflexivity).
  symmetry in Hd. apply failure_not_saved in Hd. contradiction.
Qed.

(** A successful [save_to_database] connected, inserted one row built from
    its arguments, committed it, closed, and returns the row's id. *)
Lemma SaveRun_saved w self file_metadata s3_url user_id st id st' :
  SaveRun w self file_metadata s3_url user_id st (saved id) st' ->
  exists row,
    id = VStr (row_document_id row)
    /\ SaveRow w self file_metadata s3_url user_id st row
    /\ trace st' = (trace st ++ [Pg_connect (db_connection_string self);
                                 Pg_execute_insert row; Pg_commit; Pg_close])%list
    /\ documents st' = (documents st ++ [row])%list.
Proof.
  intros H. remember (saved id) as d eqn:Hd.
  destruct H; try (apply failure_not_saved in Hd; contradiction).
  apply saved_inj in Hd. subst id. exists row. auto.
Qed.

(** [validate_file] has one result per path in a given world. *)
Lemma Validation_functional w self file_path d1 d2 :
  Validation w self file_path d1 -> Validation w self file_path d2 -> d1 = d2.
Proof.
  intros H1 H2.
  destruct H1 as [e1 Hs1|e1 Hs1|k1 s1 Hs1 Ho1|k1 s1 Hs1 Hi1 Hg1|k1 s1 Hs1 Hi1 Hl1];
    destruct H2 as [e2 Hs2|e2 Hs2|k2 s2 Hs2 Ho2|k2 s2 Hs2 Hi2 Hg2|k2 s2 Hs2 Hi2 Hl2];
    rewrite Hs1 in Hs2; try discriminate Hs2;
    first [injection Hs2 as <- <- | injection Hs2 as <-];
    try reflexivity; try contradiction; try lia.
Qed.

Lemma s3_error_text_nonempty e : s3_error_text e <> "".
Proof. unfold s3_error_text. destruct (exc_class e); discriminate. Qed.

Lemma name_of_suffix file_path :
  PurePath.name file_path = "" -> PurePath.suffix file_path = "".
Proof. intros H. unfold PurePath.suffix. rewrite H. reflexivity. Qed.

(** Events of a run whose validation passed: the put with the generated
    key comes first, database calls follow. *)
Lemma valid_run_events w self file_path user_id st v :
  fst (validate_file w self file_path st) = Returned v ->
  v !! "valid" = Some (VBool true) ->
  exists rest,
    new_events st (snd (upload_document w self file_path user_id st))
    = S3_upload_file file_path (s3_bucket_name self)
        (next_uuid w st ++ extension_of file_path) :: rest
    /\ forallb is_pg_event rest = true.
Proof.
  intros Hd Hvalid.
  destruct (validate_file_fst _ _ _ _ _ Hd) as [Hv HV].
  destruct (upload_document_spec w self file_path user_id st)
    as [t [d [st' [Hrun HR]]]].
  rewrite Hrun. cbn [snd].
  destruct HR as [msg HV'|v' e HV' _ Hput|v' err st' HV' _ Hput HS
                 |v' id st' HV' _ Hput HS].
  - rewrite (Validation_functional _ _ _ _ _ HV HV') in Hvalid.
    rewrite invalid_valid in Hvalid. discriminate Hvalid.
  - exists []. split; [|reflexivity]. apply new_events_app. reflexivity.
  - destruct (SaveRun_events _ _ _ _ _ _ _ _ HS) as [evs [Ht Hpg]].
    exists (Pg_connect (db_connection_string self) :: evs). split; [|exact Hpg].
    apply new_events_app. rewrite Ht. cbn [after_put trace].
    rewrite <- app_assoc. reflexivity.
  - destruct (SaveRun_events _ _ _ _ _ _ _ _ HS) as [evs [Ht Hpg]].
    exists (Pg_connect (db_connection_string self) :: evs). split; [|exact Hpg].
    apply new_events_app. rewrite Ht. cbn [after_put trace].
    rewrite <- app_assoc. reflexivity.
Qed.

(** C10. [upload_document] and [validate_file] never let an exception
    out: from every state, for every path and user, each returns a dict,
    with a boolean under ['success'], respectively under ['valid']. *)
Theorem no_exception_escapes w self file_path user_id st :
  (exists d st' b,
      upload_document w self file_path user_id st = (Returned d, st')
      /\ d !! "success" = Some (VBool b))
  /\ (exists d st' b,
         validate_file w self file_path st = (Returned d, st')
         /\ d !! "valid" = Some (VBool b)).
Proof.
  split.
  - destruct (upload_document_spec w self file_path user_id st)
      as [t [d [st' [Hrun HR]]]].
    exists d, st'.
    destruct HR; [exists false|exists false|exists false|exists true];
      (split; [exact Hrun | reflexivity]).
  - destruct (validate_file_spec w self file_path st) as [d [Hrun HV]].
    exists d, st.
    destruct HV; [exists false|exists false|exists false|exists false|exists true];
      (split; [exact Hrun | reflexivity]).
Qed.

(** C9. Every run of [upload_document] ends in a well-formed result:
    [success=False] with a non-empty error text, or [success=True] with
    non-empty [document_id], [file_name] and [s3_url].  The S3 client is
    assumed not to accept a path without a final component (the current
    directory or the root), which it cannot open as a file. *)
Theorem every_outcome_well_formed w self file_path user_id st :
  (PurePath.name file_path = "" ->
   forall bucket key, upload_file_exc w file_path bucket key <> None) ->
  exists d st',
    upload_document w self file_path user_id st = (Returned d, st')
    /\ well_formed d = true.
Proof.
  intros Hs3.
  destruct (upload_document_spec w self file_path user_id st)
    as [t [d [st' [Hrun HR]]]].
  exists d, st'. split; [exact Hrun|].
  assert (Hfail : forall msg, msg <> "" -> well_formed (failure (VStr msg)) = true).
  { intros msg Hmsg. unfold well_formed.
    rewrite failure_success, failure_error. cbn [nonempty_str].
    apply negb_true_iff, String.eqb_neq, Hmsg. }
  destruct HR as [msg HV|v e HV Hvalid Hput|v err st' HV Hvalid Hput HS
                 |v id st' HV Hvalid Hput HS].
  - apply Hfail.
    destruct (Validation_invalid _ _ _ _ HV (invalid_valid msg)) as [msg' [Heq Hne]].
    apply invalid_inj in Heq. congruence.
  - apply Hfail, s3_error_text_nonempty.
  - apply Hfail.
    destruct (SaveRun_failed _ _ _ _ _ _ _ _ HS) as [msg Hmsg].
    injection Hmsg as ->. discriminate.
  - destruct (SaveRun_saved _ _ _ _ _ _ _ _ HS) as [row [Hid [Hrow _]]].
    injection Hid as ->.
    assert (Hdoc : row_document_id row <> "").
    { destruct Hrow. apply uuid4_string_nonempty, next_uuid_shape. }
    assert (Hname : PurePath.name file_path <> "").
    { intros Hempty. exact (Hs3 Hempty _ _ Hput). }
    apply String.eqb_neq in Hdoc, Hname.
    unfold well_formed.
    change (uploaded ?a ?b ?c !! "success") with (Some (VBool true)).
    change (uploaded ?a ?b ?c !! "document_id") with (Some a).
    change (uploaded ?a ?b ?c !! "file_name") with (Some b).
    change (uploaded ?a ?b ?c !! "s3_url") with (Some c).
    cbn [nonempty_str]. rewrite Hdoc, Hname. reflexivity.
Qed.

Lemma every_outcome_well_formed_witness :
  (exists d st',
      upload_document (Scenario.world Scenario.cfg None None None None)
        Scenario.uploader "syllabus.pdf" "user123" Scenario.st0 = (Returned d, st')
      /\ well_formed d = true)
  /\ (exists d st',
         upload_document Scenario.world_empty_entry Scenario.uploader_empty_entry
           "." "user123" Scenario.st0 = (Returned d, st')
         /\ well_formed d = true).
Proof.
  split.
  - apply (every_outcome_well_formed
             (Scenario.world Scenario.cfg None None None None)
             Scenario.uploader "syllabus.pdf" "user123" Scenario.st0).
    intros Hname. vm_compute in Hname. discriminate Hname.
  - apply (every_outcome_well_formed Scenario.world_empty_entry
             Scenario.uploader_empty_entry "." "user123" Scenario.st0).
    intros _ bucket key. vm_compute. discriminate.
Defined.

(** C8. On a successful upload exactly one row was inserted and
    committed; it carries status ['uploaded'], a [document_id] that is the
    UUID drawn after the storage key's, the caller's [user_id], the
    [file_name], [file_extension], [file_size] and [mime_type] of the
    validation result, and the URL [upload_to_s3] returned; the dict
    returned to the caller holds [success=True] with that [document_id],
    that [file_name] and that URL. *)
Theorem successful_upload_record w self file_path user_id st d st' :
  upload_document w self file_path user_id st = (Returned d, st') ->
  d !! "success" = Some (VBool true) ->
  exists v r row,
    validate_file w self file_path st = (Returned v, st)
    /\ fst (upload_to_s3 w self file_path
              (next_uuid w st ++ extension_of file_path) (snd (uuid4 w st)))
       = Returned r
    /\ inserted_rows (new_events st st') = [row]
    /\ documents st' = (documents st ++ [row])%list
    /\ row_status row = "uploaded"
    /\ row_document_id row = next_uuid w (snd (uuid4 w st))
    /\ Uuid.is_uuid4_string (row_document_id row) = true
    /\ row_user_id row = user_id
    /\ v !! "file_name" = Some (row_file_name row)
    /\ v !! "file_extension" = Some (row_file_extension row)
    /\ v !! "file_size" = Some (row_file_size row)
    /\ v !! "mime_type" = Some (row_mime_type row)
    /\ r !! "s3_url" = Some (row_s3_url row)
    /\ d = uploaded (VStr (row_document_id row)) (row_file_name row)
             (row_s3_url row).
Proof.
  intros Hrun Hsuccess.
  destruct (upload_document_spec w self file_path user_id st)
    as [t [d' [st'' [Hrun' HR]]]].
  rewrite Hrun in Hrun'. injection Hrun' as <- <-.
  destruct HR as [msg HV|v e HV Hvalid Hput|v err st' HV Hvalid Hput HS
                 |v id st' HV Hvalid Hput HS];
    try (rewrite failure_success in Hsuccess; discriminate Hsuccess).
  destruct (validate_file_spec w self file_path st) as [v' [Hv HV']].
  rewrite (Validation_functional _ _ _ _ _ HV' HV) in Hv.
  destruct (Validation_valid _ _ _ _ HV Hvalid) as [kind [size [_ [_ [_ Hdesc]]]]].
  destruct (SaveRun_saved _ _ _ _ _ _ _ _ HS) as [row [Hid [Hrow [Htrace Hdocs]]]].
  injection Hid as ->.
  set (key := next_uuid w st ++ extension_of file_path) in *.
  exists v, (stored (s3_url_of self key) key), row.
  split; [exact Hv|].
  split; [rewrite upload_to_s3_spec, Hput; reflexivity|].
  split.
  { rewrite (new_events_app st st'
               [S3_upload_file file_path (s3_bucket_name self) key;
                Pg_connect (db_connection_string self);
                Pg_execute_insert row; Pg_commit; Pg_close]).
    - reflexivity.
    - rewrite Htrace. cbn [after_put trace]. rewrite <- app_assoc. reflexivity. }
  split; [exact Hdocs|].
  destruct Hrow as [name ext fsize mime Hname Hext Hsize Hmime].
  cbn [row_status row_document_id row_user_id row_file_name row_file_extension
       row_file_size row_mime_type row_s3_url].
  split; [reflexivity|].
  split; [reflexivity|].
  split; [apply next_uuid_shape|].
  split; [reflexivity|].
  split; [exact Hname|].
  split; [exact Hext|].
  split; [exact Hsize|].
  split; [exact Hmime|].
  split; [reflexivity|].
  rewrite Hdesc in Hname. change (Some (VStr (PurePath.name file_path)) = Some name) in Hname.
  injection Hname as <-. reflexivity.
Qed.

Lemma successful_upload_record_witness :
  let w := Scenario.world Scenario.cfg None None None None in
  let run := upload_document w Scenario.uploader "syllabus.pdf" "user123"
               Scenario.st0 in
  exists v r row,
    validate_file w Scenario.uploader "syllabus.pdf" Scenario.st0
    = (Returned v, Scenario.st0)
    /\ fst (upload_to_s3 w Scenario.uploader "syllabus.pdf"
              (next_uuid w Scenario.st0 ++ extension_of "syllabus.pdf")
              (snd (uuid4 w Scenario.st0)))
       = Returned r
    /\ inserted_rows (new_events Scenario.st0 (snd run)) = [row]
    /\ documents (snd run) = (documents Scenario.st0 ++ [row])%list
    /\ row_status row = "uploaded"
    /\ row_document_id row = next_uuid w (snd (uuid4 w Scenario.st0))
    /\ Uuid.is_uuid4_string (row_document_id row) = true
    /\ row_user_id row = "user123"
    /\ v !! "file_name" = Some (row_file_name row)
    /\ v !! "file_extension" = Some (row_file_extension row)
    /\ v !! "file_size" = Some (row_file_size row)
    /\ v !! "mime_type" = Some (row_mime_type row)
    /\ r !! "s3_url" = Some (row_s3_url row)
    /\ uploaded (VStr "01234568-89ab-4df0-8123-456889abcdf0") (VStr "syllabus.pdf")
         (VStr "https://syllabus-documents.s3.us-east-1.amazonaws.com/01234567-89ab-4def-8123-456789abcdef.pdf")
       = uploaded (VStr (row_document_id row)) (row_file_name row) (row_s3_url row).
Proof.
  cbv zeta.
  apply (successful_upload_record (Scenario.world Scenario.cfg None None None None)
           Scenario.uploader "syllabus.pdf" "user123" Scenario.st0).
  - vm_compute. reflexivity.
  - vm_compute. reflexivity.
Defined.

(** C7. The key handed to the blob store is the string of a fresh
    version-4 UUID followed by the validated, lowercased extension, and
    nothing else of the path enters it: two validated uploads whose paths
    have the same lowercased extension and which draw the same random
    bytes hand over the same key, whatever the rest of the paths, the
    users, the uploaders and the worlds are. *)
Theorem storage_key_is_uuid_and_extension
    w1 self1 path1 user1 st1 v1 w2 self2 path2 user2 st2 v2 :
  fst (validate_file w1 self1 path1 st1) = Returned v1 ->
  v1 !! "valid" = Some (VBool true) ->
  fst (validate_file w2 self2 path2 st2) = Returned v2 ->
  v2 !! "valid" = Some (VBool true) ->
  extension_of path1 = extension_of path2 ->
  os_urandom w1 (urandom_calls st1) = os_urandom w2 (urandom_calls st2) ->
  put_keys (new_events st1 (snd (upload_document w1 self1 path1 user1 st1)))
  = [next_uuid w1 st1 ++ extension_of path1]
  /\ Uuid.is_uuid4_string (next_uuid w1 st1) = true
  /\ v1 !! "file_extension" = Some (VStr (PyStr.lower (PurePath.suffix path1)))
  /\ put_keys (new_events st2 (snd (upload_document w2 self2 path2 user2 st2)))
     = put_keys (new_events st1 (snd (upload_document w1 self1 path1 user1 st1))).
Proof.
  intros Hd1 Hvalid1 Hd2 Hvalid2 Hext Hrandom.
  destruct (valid_run_events w1 self1 path1 user1 st1 v1 Hd1 Hvalid1)
    as [rest1 [Hev1 Hpg1]].
  destruct (valid_run_events w2 self2 path2 user2 st2 v2 Hd2 Hvalid2)
    as [rest2 [Hev2 Hpg2]].
  rewrite Hev1, Hev2. cbn [put_keys].
  rewrite (pg_events_no_put _ Hpg1), (pg_events_no_put _ Hpg2).
  split; [reflexivity|]. split; [apply next_uuid_shape|]. split.
  - destruct (validate_file_fst _ _ _ _ _ Hd1) as [_ HV].
    destruct (Validation_valid _ _ _ _ HV Hvalid1) as [kind [size [_ [_ [_ ->]]]]].
    reflexivity.
  - unfold next_uuid. rewrite Hext, Hrandom. reflexivity.
Qed.

Lemma storage_key_is_uuid_and_extension_witness :
  let w := Scenario.world Scenario.cfg None None None None in
  put_keys (new_events Scenario.st0
              (snd (upload_document w Scenario.uploader "syllabus.pdf" "user123"
                      Scenario.st0)))
  = ["01234567-89ab-4def-8123-456789abcdef.pdf"]
  /\ Uuid.is_uuid4_string "01234567-89ab-4def-8123-456789abcdef" = true
  /\ descriptor "syllabus.pdf" ".pdf" 1024 (Some "application/pdf") "syllabus.pdf"
       !! "file_extension" = Some (VStr ".pdf")
  /\ put_keys (new_events Scenario.st0
                 (snd (upload_document w Scenario.uploader "Syllabus.PDF" "someone"
                         Scenario.st0)))
     = put_keys (new_events Scenario.st0
                   (snd (upload_document w Scenario.uploader "syllabus.pdf"
                           "user123" Scenario.st0))).
Proof.
  cbv zeta.
  apply (storage_key_is_uuid_and_extension
           (Scenario.world Scenario.cfg None None None None)
           Scenario.uploader "syllabus.pdf" "user123" Scenario.st0
           (descriptor "syllabus.pdf" ".pdf" 1024 (Some "application/pdf") "syllabus.pdf")
           (Scenario.world Scenario.cfg None None None None)
           Scenario.uploader "Syllabus.PDF" "someone" Scenario.st0
           (descriptor "Syllabus.PDF" ".pdf" 2048 (Some "application/pdf") "Syllabus.PDF")).
  - vm_compute. reflexivity.
  - vm_compute. reflexivity.
  - vm_compute. reflexivity.
  - vm_compute. reflexivity.
  - vm_compute. reflexivity.
  - vm_compute. reflexivity.
Defined.

(** C4, at a directory.  The path ["docs.pdf"] names a directory, so no
    regular file exists there, and [validate_file] does not answer
    "File does not exist": it returns a valid descriptor for it. *)
Theorem directory_passes_validation :
  os_stat (Scenario.world Scenario.cfg None None None None) "docs.pdf"
  = StatOk Directory 4096
  /\ validate_file (Scenario.world Scenario.cfg None None None None)
       Scenario.uploader "docs.pdf" Scenario.st0
     = (Returned (descriptor "docs.pdf" ".pdf" 4096 (Some "application/pdf")
                    "docs.pdf"),
        Scenario.st0)
  /\ descriptor "docs.pdf" ".pdf" 4096 (Some "application/pdf") "docs.pdf"
     <> NotFound.
Proof.
  split; [reflexivity|]. split; [vm_compute; reflexivity|].
  intros H. symmetry in H. exact (invalid_not_descriptor _ _ _ _ _ _ H).
Qed.

(** The part of C4 the code does satisfy: where [os.stat] finds no entry,
    [validate_file] fails with the not-found error. *)
Lemma missing_path_not_found w self file_path st e :
  os_stat w (PurePath.str file_path) = StatMissing e ->
  validate_file w self file_path st = (Returned NotFound, st).
Proof.
  intros Hs. destruct (validate_file_spec w self file_path st) as [d [Hrun HV]].
  rewrite Hrun. f_equal. f_equal.
  exact (Validation_functional _ _ _ _ _ HV (V_missing _ _ _ e Hs)).
Qed.

(** Any existing entry passes the existence check, whatever its kind. *)
Lemma existing_entry_not_reported_missing w self file_path st kind size :
  os_stat w (PurePath.str file_path) = StatOk kind size ->
  fst (validate_file w self file_path st) <> Returned NotFound.
Proof.
  intros Hs Hnf.
  destruct (validate_file_fst _ _ _ _ _ Hnf) as [_ HV].
  remember NotFound as d eqn:Hd.
  destruct HV as [e Hs'|e Hs'|k s Hs' Hout|k s Hs' Hin Hgt|k s Hs' Hin Hle];
    try (rewrite Hs in Hs'; discriminate Hs').
  - apply invalid_inj in Hd. discriminate Hd.
  - apply invalid_inj in Hd. discriminate Hd.
  - symmetry in Hd. exact (invalid_not_descriptor _ _ _ _ _ _ Hd).
Qed.

(** C5, as worded, at a concrete file: ["notes.txt"] is 10 MB above the
    maximum, and [validate_file] fails on its format, not on its size. *)
Lemma oversized_file_fails_on_format :
  let w := Scenario.world Scenario.cfg None None None None in
  os_stat w "notes.txt" = StatOk Regular 62914560
  /\ (62914560 >= MAX_FILE_SIZE (config w) + 1)%Z
  /\ validate_file w Scenario.uploader "notes.txt" Scenario.st0
     = (Returned (UnsupportedFormat (supported_extensions Scenario.uploader)),
        Scenario.st0)
  /\ fails_on_size (UnsupportedFormat (supported_extensions Scenario.uploader))
     = false
  /\ fst (validate_file w Scenario.uploader "notes.txt" Scenario.st0)
     <> Returned (TooLarge (MAX_FILE_SIZE (config w)) 62914560).
Proof.
  cbv zeta. split; [reflexivity|]. split; [vm_compute; discriminate|].
  split; [vm_compute; reflexivity|]. split; [vm_compute; reflexivity|].
  intros H. vm_compute in H. discriminate H.
Qed.

Lemma fails_on_size_failure msg :
  String.prefix "File too large" msg = false ->
  fails_on_size (failure (VStr msg)) = false.
Proof. intros H. unfold fails_on_size. rewrite failure_error. exact H. Qed.

(** C5, amended.  For an existing entry whose extension is allowed, a
    size above the maximum makes [validate_file] fail with the size
    error; for an existing entry whose size equals the maximum,
    [validate_file] does not fail on size (with an allowed extension it
    succeeds), and neither does [upload_document]. *)
Theorem size_check_is_strict w self file_path st kind size :
  os_stat w (PurePath.str file_path) = StatOk kind size ->
  (extension_of file_path ∈ supported_extensions self ->
   (size >= MAX_FILE_SIZE (config w) + 1)%Z ->
   validate_file w self file_path st
   = (Returned (TooLarge (MAX_FILE_SIZE (config w)) size), st))
  /\ (size = MAX_FILE_SIZE (config w) ->
      (exists d, validate_file w self file_path st = (Returned d, st)
                 /\ fails_on_size d = false
                 /\ (extension_of file_path ∈ supported_extensions self ->
                     d !! "valid" = Some (VBool true)))
      /\ forall user_id, exists d st',
           upload_document w self file_path user_id st = (Returned d, st')
           /\ fails_on_size d = false).
Proof.
  intros Hs. split.
  - intros Hin Hgt.
    destruct (validate_file_spec w self file_path st) as [d [Hrun HV]].
    rewrite Hrun. f_equal. f_equal.
    apply (Validation_functional _ _ _ _ _ HV).
    eapply V_too_large; eauto. lia.
  - intros Hmax.
    assert (Hval : forall d, Validation w self file_path d ->
                     fails_on_size d = false
                     /\ (forall msg, d = invalid msg ->
                           String.prefix "File too large" msg = false)).
    { intros d HV.
      destruct HV as [e Hs'|e Hs'|k s Hs' Hout|k s Hs' Hin Hgt|k s Hs' Hin Hle];
        rewrite Hs in Hs'; try discriminate Hs'.
      - split; [reflexivity|]. intros msg Hm. apply invalid_inj in Hm.
        subst msg. reflexivity.
      - injection Hs' as <- <-. lia.
      - split; [reflexivity|]. intros msg Hm.
        symmetry in Hm. apply invalid_not_descriptor in Hm. contradiction. }
    split.
    + destruct (validate_file_spec w self file_path st) as [d [Hrun HV]].
      exists d. split; [exact Hrun|]. split; [apply Hval, HV|].
      intros Hin.
      rewrite (Validation_functional _ _ _ _ _ HV
                 (V_valid _ _ _ kind size Hs Hin ltac:(lia))).
      apply descriptor_valid.
    + intros user_id.
      destruct (upload_document_spec w self file_path user_id st)
        as [t [d [st' [Hrun HR]]]].
      exists d, st'. split; [exact Hrun|].
      destruct HR as [msg HV|v e HV Hvalid Hput|v err st' HV Hvalid Hput HS
                     |v id st' HV Hvalid Hput HS].
      * apply fails_on_size_failure. exact (proj2 (Hval _ HV) msg eq_refl).
      * apply fails_on_size_failure. unfold s3_error_text.
        destruct (exc_class e); reflexivity.
      * destruct (SaveRun_failed _ _ _ _ _ _ _ _ HS) as [msg Hmsg].
        injection Hmsg as ->. apply fails_on_size_failure. reflexivity.
      * reflexivity.
Qed.

Lemma size_check_is_strict_witness :
  let w := Scenario.world Scenario.cfg None None None None in
  validate_file w Scenario.uploader "big.pdf" Scenario.st0
  = (Returned (TooLarge 52428800 62914560), Scenario.st0)
  /\ exists d st',
       upload_document w Scenario.uploader "edge.pdf" "user123" Scenario.st0
       = (Returned d, st')
       /\ fails_on_size d = false.
Proof.
  cbv zeta. split.
  - apply (size_check_is_strict (Scenario.world Scenario.cfg None None None None)
             Scenario.uploader "big.pdf" Scenario.st0 Regular 62914560).
    + reflexivity.
    + apply (bool_decide_unpack _). vm_compute. exact I.
    + vm_compute. discriminate.
  - apply (size_check_is_strict (Scenario.world Scenario.cfg None None None None)
             Scenario.uploader "edge.pdf" Scenario.st0 Regular 52428800).
    + reflexivity.
    + reflexivity.
Defined.

(** C6, as worded, at a concrete configuration.  With
    [SUPPORTED_EXTENSIONS=.PDF,doc] the normalized allow-set of the claim
    holds [".pdf"], the extension of ["syllabus.pdf"]; the uploader's set
    is a different one, and [validate_file] rejects the file as an
    unsupported format. *)
Lemma configured_entries_not_normalized :
  let w := Scenario.world Scenario.cfg_upper None None None None in
  getenv_default Scenario.environ_upper "SUPPORTED_EXTENSIONS" ".pdf,.doc,.docx"
  = ".PDF,doc"
  /\ supported_extensions Scenario.uploader_upper
     <> normalized_allow_set ".PDF,doc"
  /\ extension_of "syllabus.pdf" ∈ normalized_allow_set ".PDF,doc"
  /\ validate_file w Scenario.uploader_upper "syllabus.pdf" Scenario.st0
     = (Returned (UnsupportedFormat (supported_extensions Scenario.uploader_upper)),
        Scenario.st0).
Proof.
  cbv zeta. split; [vm_compute; reflexivity|].
  assert (Hin : extension_of "syllabus.pdf" ∈ normalized_allow_set ".PDF,doc")
    by (apply (bool_decide_unpack _); vm_compute; exact I).
  assert (Hout : extension_of "syllabus.pdf"
                 ∉ supported_extensions Scenario.uploader_upper)
    by (apply (bool_decide_unpack _); vm_compute; exact I).
  split; [|split; [exact Hin | vm_compute; reflexivity]].
  intros Heq. apply Hout. rewrite Heq. exact Hin.
Qed.

Lemma DocumentUploader_init_extensions c a1 a2 a3 a4 a5 self :
  DocumentUploader_init c a1 a2 a3 a4 a5 = inr self ->
  supported_extensions self = list_to_set (SUPPORTED_EXTENSIONS c).
Proof.
  unfold DocumentUploader_init. intros H.
  destruct (if opt_truthy a5 then _ else _) as [e|dsn]; [discriminate H|].
  destruct (negb _); [discriminate H|].
  destruct (String.eqb dsn ""); [discriminate H|].
  injection H as <-. reflexivity.
Qed.

(** C6, amended.  The allow-set of an uploader is the
    [SUPPORTED_EXTENSIONS] value split at its commas, each entry taken as
    it is written; and for an existing path [validate_file] fails with the
    unsupported-format error exactly when the lowercased extension of the
    path is not in that set.  Matching ignores the case of the file name
    only. *)
Theorem allow_set_is_split_value
    environ rds_port max_file_size a1 a2 a3 a4 a5 self w file_path st kind size :
  config w = Config_load environ rds_port max_file_size ->
  DocumentUploader_init (config w) a1 a2 a3 a4 a5 = inr self ->
  os_stat w (PurePath.str file_path) = StatOk kind size ->
  supported_extensions self
  = list_to_set
      (PyStr.split "," (getenv_default environ "SUPPORTED_EXTENSIONS"
                          ".pdf,.doc,.docx"))
  /\ (validate_file w self file_path st
      = (Returned (UnsupportedFormat (supported_extensions self)), st)
      <-> PyStr.lower (PurePath.suffix file_path) ∉ supported_extensions self).
Proof.
  intros Hcfg Hinit Hs. split.
  - rewrite (DocumentUploader_init_extensions _ _ _ _ _ _ _ Hinit), Hcfg.
    reflexivity.
  - destruct (validate_file_spec w self file_path st) as [d [Hrun HV]].
    rewrite Hrun. split.
    + intros Heq. injection Heq as ->.
      remember (UnsupportedFormat (supported_extensions self)) as d eqn:Hd.
      destruct HV as [e Hs'|e Hs'|k s Hs' Hout|k s Hs' Hin Hgt|k s Hs' Hin Hle];
        try (rewrite Hs in Hs'; discriminate Hs').
      * exact Hout.
      * apply invalid_inj in Hd. discriminate Hd.
      * symmetry in Hd. apply invalid_not_descriptor in Hd. contradiction.
    + intros Hout. f_equal. f_equal.
      exact (Validation_functional _ _ _ _ _ HV (V_unsupported _ _ _ kind size Hs Hout)).
Qed.

Lemma allow_set_is_split_value_witness :
  let w := Scenario.world Scenario.cfg_upper None None None None in
  supported_extensions Scenario.uploader_upper
  = list_to_set (PyStr.split "," ".PDF,doc")
  /\ (validate_file w Scenario.uploader_upper "Syllabus.PDF" Scenario.st0
      = (Returned (UnsupportedFormat (supported_extensions Scenario.uploader_upper)),
         Scenario.st0)
      <-> PyStr.lower (PurePath.suffix "Syllabus.PDF")
          ∉ supported_extensions Scenario.uploader_upper).
Proof.
  cbv zeta.
  apply (allow_set_is_split_value Scenario.environ_upper 5432 52428800
           None None None None None Scenario.uploader_upper
           (Scenario.world Scenario.cfg_upper None None None None)
           "Syllabus.PDF" Scenario.st0 Regular 2048).
  - reflexivity.
  - vm_compute. reflexivity.
  - reflexivity.
Defined.

(** ** Further properties of the configuration and the constructor *)







(** X3. Without a connection-string argument (absent or empty), an
    incomplete database configuration is what the constructor reports,
    whatever the credentials are: the URL is built before the credentials
    are checked. *)
Theorem init_reports_database_settings_first c a1 a2 a3 a4 a5 :
  opt_truthy a5 = false ->
  opt_truthy (RDS_HOST c) && opt_truthy (RDS_DB c) && opt_truthy (RDS_USER c)
  && opt_truthy (RDS_PASSWORD c) = false ->
  DocumentUploader_init c a1 a2 a3 a4 a5
  = inl (mkExc ValueError "Missing required RDS PostgreSQL environment variables").
Proof.
  intros Ha5 Hrds. unfold DocumentUploader_init, get_database_url.
  rewrite Ha5, Hrds. reflexivity.
Qed.

Lemma init_reports_database_settings_first_witness :
  DocumentUploader_init Cases.cfg_bare None None None None (Some "")
  = inl (mkExc ValueError "Missing required RDS PostgreSQL environment variables").
Proof.
  apply (init_reports_database_settings_first Cases.cfg_bare None None None None
           (Some "")); reflexivity.
Defined.

Lemma missing_vars_nil vars :
  missing_vars vars = [] <-> forallb snd vars = true.
Proof.
  induction vars as [|[var set] vars IH]; [split; reflexivity|].
  cbn [missing_vars forallb snd]. destruct set; cbn [andb].
  - exact IH.
  - split; discriminate.
Qed.

Lemma missing_vars_In vars var :
  In var (missing_vars vars) <-> In (var, false) vars.
Proof.
  induction vars as [|[v set] vars IH]; [split; intros []|].
  cbn [missing_vars]. destruct set.
  - rewrite IH. split; [right; assumption|].
    intros [H|H]; [discriminate H | exact H].
  - cbn [In]. rewrite IH. split.
    + intros [->|H]; [left; reflexivity | right; exact H].
    + intros [H|H]; [injection H as ->; left; reflexivity | right; exact H].
Qed.

Lemma validate_config_true c sc :
  validate_config c sc = inr true <-> forallb snd (required_vars c sc) = true.
Proof.
  unfold validate_config. rewrite <- missing_vars_nil.
  destruct (missing_vars (required_vars c sc)); split;
    try reflexivity; discriminate.
Qed.

(** X4. [validate_config] returns [True] exactly when all twelve
    required values are set and non-empty; otherwise it raises a
    [ValueError] whose text lists the names that are not, and only those. *)
Theorem validate_config_reports_the_missing c sc :
  (validate_config c sc = inr true
   <-> forallb snd (required_vars c sc) = true)
  /\ (forall e, validate_config c sc = inl e ->
        e = mkExc ValueError
              ("Missing required environment variables: "
               ++ PyStr.join ", " (missing_vars (required_vars c sc)))
        /\ missing_vars (required_vars c sc) <> []
        /\ forall var, In var (missing_vars (required_vars c sc))
                       <-> In (var, false) (required_vars c sc)).
Proof.
  split; [apply validate_config_true|].
  unfold validate_config.
  intros e H.
  destruct (missing_vars (required_vars c sc)) as [|m ms] eqn:Hm;
    [discriminate H|].
  injection H as <-. split; [reflexivity|]. split; [discriminate|].
  intros var. rewrite <- Hm. apply missing_vars_In.
Qed.



(** X6. The three required values that have a default, [AWS_REGION],
    [S3_BUCKET_NAME] and [BEDROCK_MODEL_ID], are never reported missing
    when the environment does not define them; they can only be missing
    when the environment sets them to the empty string. *)
Theorem defaulted_values_not_missing environ rds_port max_file_size var :
  var = "AWS_REGION" \/ var = "S3_BUCKET_NAME" \/ var = "BEDROCK_MODEL_ID" ->
  environ !! var = None ->
  ~ In var (missing_vars
              (required_vars (Config_load environ rds_port max_file_size)
                 (ServiceConfig_load environ))).
Proof.
  intros Hvar Henv Hin. apply missing_vars_In in Hin.
  cbn [required_vars In] in Hin.
  destruct Hvar as [-> | [-> | ->]];
    cbn [Config_load ServiceConfig_load AWS_REGION S3_BUCKET_NAME BEDROCK_MODEL_ID]
      in Hin;
    unfold getenv_default in Hin; rewrite Henv in Hin;
    repeat (destruct Hin as [Hin|Hin]; [discriminate Hin|]);
    exact Hin.
Qed.

Lemma defaulted_values_not_missing_witness :
  ~ In "S3_BUCKET_NAME"
      (missing_vars (required_vars (Config_load ∅ 5432 52428800)
                       (ServiceConfig_load ∅))).
Proof.
  apply (defaulted_values_not_missing ∅ 5432 52428800 "S3_BUCKET_NAME").
  - right. left. reflexivity.
  - reflexivity.
Defined.

(** X7. [is_production] and [is_development] are never both true, and
    an environment that does not define [APP_ENV] is a development one. *)
Theorem environment_modes_exclusive :
  (forall sc, is_production sc && is_development sc = false)
  /\ (forall environ, environ !! "APP_ENV" = None ->
        is_development (ServiceConfig_load environ) = true
        /\ is_production (ServiceConfig_load environ) = false).
Proof.
  split.
  - intros sc. unfold is_production, is_development.
    destruct (String.eqb_spec (PyStr.lower (APP_ENV sc)) "production") as [->|];
      reflexivity.
  - intros environ Henv. unfold is_production, is_development.
    cbn [ServiceConfig_load APP_ENV]. unfold getenv_default. rewrite Henv.
    split; reflexivity.
Qed.

(** ** Further properties of the three steps *)

(** X8. [upload_to_s3] never raises.  It calls [upload_file] exactly
    once, with the path, the uploader's bucket and the key it was given,
    and touches nothing else; it reports success exactly when that call
    did not raise, then with the key and the bucket URL ending in the key;
    a [ClientError] is reported as "S3 upload error", any other exception
    as "Upload error", each followed by the exception text. *)
Theorem upload_to_s3_reports_client_outcome w self file_path key st :
  exists d st',
    upload_to_s3 w self file_path key st = (Returned d, st')
    /\ new_events st st' = [S3_upload_file file_path (s3_bucket_name self) key]
    /\ urandom_calls st' = urandom_calls st
    /\ documents st' = documents st
    /\ (d !! "success" = Some (VBool true)
        <-> upload_file_exc w file_path (s3_bucket_name self) key = None)
    /\ (upload_file_exc w file_path (s3_bucket_name self) key = None ->
        d !! "s3_key" = Some (VStr key)
        /\ d !! "s3_url"
           = Some (VStr ("https://" ++ s3_bucket_name self ++ ".s3."
                         ++ aws_region self ++ ".amazonaws.com/" ++ key)))
    /\ (forall e,
          upload_file_exc w file_path (s3_bucket_name self) key = Some e ->
          d !! "success" = Some (VBool false)
          /\ d !! "error"
             = Some (VStr ((match exc_class e with
                            | ClientError => "S3 upload error: "
                            | _ => "Upload error: "
                            end) ++ exc_str e))).
Proof.
  do 2 eexists. split; [apply upload_to_s3_spec|].
  split; [apply new_events_app; reflexivity|].
  split; [reflexivity|]. split; [reflexivity|].
  destruct (upload_file_exc w file_path (s3_bucket_name self) key) as [e|].
  - split; [split; discriminate|]. split; [discriminate|].
    intros e' He. injection He as <-. split; [reflexivity|].
    unfold s3_error_text. destruct (exc_class e); reflexivity.
  - split; [split; reflexivity|]. split; [intros _; split; reflexivity|].
    discriminate.
Qed.

Lemma first_missing_key_spec file_metadata key :
  first_missing_key file_metadata = Some key ->
  file_metadata !! key = None
  /\ (key = "file_name"
      \/ (key = "file_extension" /\ is_Some (file_metadata !! "file_name"))
      \/ (key = "file_size" /\ is_Some (file_metadata !! "file_name")
          /\ is_Some (file_metadata !! "file_extension"))
      \/ (key = "mime_type" /\ is_Some (file_metadata !! "file_name")
          /\ is_Some (file_metadata !! "file_extension")
          /\ is_Some (file_metadata !! "file_size"))).
Proof.
  unfold first_missing_key. cbn [List.find].
  destruct (file_metadata !! "file_name") as [v1|] eqn:H1;
    [|intros H; injection H as <-; auto].
  destruct (file_metadata !! "file_extension") as [v2|] eqn:H2;
    [|intros H; injection H as <-; eauto 6].
  destruct (file_metadata !! "file_size") as [v3|] eqn:H3;
    [|intros H; injection H as <-; eauto 8].
  destruct (file_metadata !! "mime_type") as [v4|] eqn:H4;
    [discriminate|intros H; injection H as <-; eauto 10].
Qed.

(** X9. When the metadata handed to [save_to_database] lacks one of
    ['file_name'], ['file_extension'], ['file_size'], ['mime_type'], the
    function connects, draws the document id, and then fails on the first
    missing key: it returns [success=False] with
    "Database error: '<key>'", and neither the INSERT nor the commit is
    attempted. *)
Theorem save_to_database_missing_key w self file_metadata s3_url user_id st key :
  connect_exc w (db_connection_string self) = None ->
  first_missing_key file_metadata = Some key ->
  exists st',
    save_to_database w self file_metadata s3_url user_id st
    = (Returned (failure (VStr ("Database error: '" ++ key ++ "'"))), st')
    /\ new_events st st' = [Pg_connect (db_connection_string self)]
    /\ urandom_calls st' = S (urandom_calls st)
    /\ documents st' = documents st.
Proof.
  intros Hconn Hkey.
  destruct (first_missing_key_spec _ _ Hkey) as [Hnone Hcase].
  unfold save_to_database, try_except, bind, psycopg2_connect, bind, emit, fail_if.
  rewrite Hconn. unfold ret at 1, uuid4 at 1. cbn [trace urandom_calls documents].
  unfold getitem.
  destruct Hcase as [-> | [[-> [v1 H1]] | [[-> [[v1 H1] [v2 H2]]]
                    | [-> [[v1 H1] [[v2 H2] [v3 H3]]]]]]];
    rewrite ?H1, ?H2, ?H3, Hnone; unfold ret;
    (eexists; split; [reflexivity|];
     split; [apply new_events_app; reflexivity|]; split; reflexivity).
Qed.

Lemma save_to_database_missing_key_witness :
  exists st',
    save_to_database (Scenario.world Scenario.cfg None None None None)
      Scenario.uploader Cases.metadata_without_size (VStr "url") "user123"
      Scenario.st0
    = (Returned (failure (VStr "Database error: 'file_size'")), st')
    /\ new_events Scenario.st0 st'
       = [Pg_connect (db_connection_string Scenario.uploader)]
    /\ urandom_calls st' = S (urandom_calls Scenario.st0)
    /\ documents st' = documents Scenario.st0.
Proof.
  apply (save_to_database_missing_key (Scenario.world Scenario.cfg None None None None)
           Scenario.uploader Cases.metadata_without_size (VStr "url") "user123"
           Scenario.st0 "file_size").
  - reflexivity.
  - vm_compute. reflexivity.
Defined.

(** X10. [save_to_database] never raises and stops at the first call
    that fails: a failed connection, INSERT or commit gives
    [success=False] with "Database error: " and the exception text, and
    leaves the table as it was.  The table changes only by one appended
    row, and only when connection, INSERT and commit all succeeded; that
    row is the one inserted, it carries the given user and URL and status
    ['uploaded'], and its id is the one returned. *)
Theorem save_to_database_commits_only_after_success
    w self file_metadata s3_url user_id st :
  exists d st',
    save_to_database w self file_metadata s3_url user_id st = (Returned d, st')
    /\ (forall e, connect_exc w (db_connection_string self) = Some e ->
          d = failure (VStr ("Database error: " ++ exc_str e))
          /\ documents st' = documents st
          /\ urandom_calls st' = urandom_calls st
          /\ inserted_rows (new_events st st') = [])
    /\ (forall row e, inserted_rows (new_events st st') = [row] ->
          execute_exc w row = Some e \/ (execute_exc w row = None
                                         /\ commit_exc w row = Some e) ->
          d = failure (VStr ("Database error: " ++ exc_str e))
          /\ documents st' = documents st)
    /\ (documents st' = documents st
        \/ exists row,
             documents st' = (documents st ++ [row])%list
             /\ connect_exc w (db_connection_string self) = None
             /\ execute_exc w row = None
             /\ commit_exc w row = None
             /\ inserted_rows (new_events st st') = [row]
             /\ commits (new_events st st') = 1
             /\ row_user_id row = user_id
             /\ row_s3_url row = s3_url
             /\ row_status row = "uploaded"
             /\ d = saved (VStr (row_document_id row))).
Proof.
  destruct (save_to_database_spec w self file_metadata s3_url user_id st)
    as [d [st' [Hrun HS]]].
  exists d, st'. split; [exact Hrun|].
  destruct HS as [e st' Hc Ht Hu Hd|k st' Hc Hk Ht Hu Hd
                 |row e st' Hc Hrow He Ht Hu Hd
                 |row e st' Hc Hrow He Hcm Ht Hu Hd
                 |row st' Hc Hrow He Hcm Ht Hu Hd];
    rewrite (new_events_app _ _ _ Ht); cbn [inserted_rows commits].
  - split; [|split; [discriminate | left; exact Hd]].
    intros e' He'. rewrite Hc in He'. injection He' as <-. auto.
  - split; [intros e He; rewrite Hc in He; discriminate He|].
    split; [discriminate | left; exact Hd].
  - split; [intros e' He'; rewrite Hc in He'; discriminate He'|].
    split; [|left; exact Hd].
    intros row' e' Hr [He'|[He' _]]; injection Hr as <-; rewrite He in He';
      [injection He' as <-; auto | discriminate He'].
  - split; [intros e' He'; rewrite Hc in He'; discriminate He'|].
    split; [|left; exact Hd].
    intros row' e' Hr [He'|[_ Hcm']]; injection Hr as <-;
      [rewrite He in He'; discriminate He'|].
    rewrite Hcm in Hcm'. injection Hcm' as <-. auto.
  - split; [intros e' He'; rewrite Hc in He'; discriminate He'|].
    split.
    + intros row' e' Hr [He'|[_ Hcm']]; injection Hr as <-;
        [rewrite He in He'; discriminate He'
        |rewrite Hcm in Hcm'; discriminate Hcm'].
    + right. exists row. destruct Hrow. repeat split; assumption.
Qed.

(** ** Further properties of the entry points *)





(** ** Further properties of the pipeline *)

(** The calls of a run, by terminal state. *)
Lemma UploadRun_events w self file_path user_id st t d st' :
  UploadRun w self file_path user_id st t d st' ->
  match t with
  | Rejected => new_events st st' = []
  | StorageFailed =>
      new_events st st'
      = [S3_upload_file file_path (s3_bucket_name self)
           (next_uuid w st ++ extension_of file_path)]
      /\ upload_file_exc w file_path (s3_bucket_name self)
           (next_uuid w st ++ extension_of file_path) <> None
  | _ =>
      exists evs,
        new_events st st'
        = S3_upload_file file_path (s3_bucket_name self)
            (next_uuid w st ++ extension_of file_path)
          :: Pg_connect (db_connection_string self) :: evs
        /\ forallb is_pg_event evs = true
        /\ (length (inserted_rows evs) <= 1)%nat
        /\ (commits evs <= 1)%nat
        /\ upload_file_exc w file_path (s3_bucket_name self)
             (next_uuid w st ++ extension_of file_path) = None
  end.
Proof.
  assert (Hsave : forall v url d0 st0,
            SaveRun w self v url user_id
              (after_put self file_path
                 (next_uuid w st ++ extension_of file_path) st) d0 st0 ->
            exists evs,
              new_events st st0
              = S3_upload_file file_path (s3_bucket_name self)
                  (next_uuid w st ++ extension_of file_path)
                :: Pg_connect (db_connection_string self) :: evs
              /\ forallb is_pg_event evs = true
              /\ (length (inserted_rows evs) <= 1)%nat
              /\ (commits evs <= 1)%nat).
  { intros v url d0 st0 HS.
    destruct HS as [e st0 Hc Ht|k st0 Hc Hk Ht|row e st0 Hc Hrow He Ht
                   |row e st0 Hc Hrow He Hcm Ht|row st0 Hc Hrow He Hcm Ht];
      cbn [after_put trace] in Ht; rewrite <- app_assoc in Ht;
      rewrite (new_events_app _ _ _ Ht); eexists;
      (split; [reflexivity|]); cbn; repeat split; lia. }
  intros HR.
  destruct HR as [msg HV|v e HV Hvalid Hput|v err st' HV Hvalid Hput HS
                 |v id st' HV Hvalid Hput HS].
  - apply new_events_same.
  - split; [apply new_events_app; reflexivity | rewrite Hput; discriminate].
  - destruct (Hsave _ _ _ _ HS) as [evs [H1 [H2 [H3 H4]]]]. eauto 8.
  - destruct (Hsave _ _ _ _ HS) as [evs [H1 [H2 [H3 H4]]]]. eauto 8.
Qed.

(** X13. One run of [upload_document] never retries and never deletes:
    it calls [upload_file] at most once, sends at most one INSERT and at
    most one commit, and calls [delete_object] for no key.  The database
    is contacted only after the one [upload_file] call, and only when that
    call succeeded. *)
Theorem upload_document_calls_each_step_once w self file_path user_id st :
  exists d st',
    upload_document w self file_path user_id st = (Returned d, st')
    /\ (length (put_keys (new_events st st')) <= 1)%nat
    /\ (length (inserted_rows (new_events st st')) <= 1)%nat
    /\ (commits (new_events st st') <= 1)%nat
    /\ (forall key, delete_calls key (new_events st st') = 0)
    /\ (existsb is_pg_event (new_events st st') = true ->
        exists rest,
          new_events st st'
          = S3_upload_file file_path (s3_bucket_name self)
              (next_uuid w st ++ extension_of file_path) :: rest
          /\ forallb is_pg_event rest = true
          /\ upload_file_exc w file_path (s3_bucket_name self)
               (next_uuid w st ++ extension_of file_path) = None).
Proof.
  destruct (upload_document_spec w self file_path user_id st)
    as [t [d [st' [Hrun HR]]]].
  exists d, st'. split; [exact Hrun|].
  pose proof (UploadRun_events _ _ _ _ _ _ _ _ HR) as Hev.
  destruct t.
  - rewrite Hev. cbn. repeat split; try lia; try discriminate.
  - destruct Hev as [Hev _]. rewrite Hev. cbn.
    repeat split; try lia; try discriminate.
  - destruct Hev as [evs [Hev [Hpg [Hins [Hcm Hput]]]]]. rewrite Hev.
    cbn [put_keys inserted_rows commits delete_calls length].
    rewrite (pg_events_no_put _ Hpg).
    repeat split; cbn; try lia.
    + intros key. apply pg_events_no_delete, Hpg.
    + intros _. eexists. split; [reflexivity|]. split; [exact Hpg | exact Hput].
  - destruct Hev as [evs [Hev [Hpg [Hins [Hcm Hput]]]]]. rewrite Hev.
    cbn [put_keys inserted_rows commits delete_calls length].
    rewrite (pg_events_no_put _ Hpg).
    repeat split; cbn; try lia.
    + intros key. apply pg_events_no_delete, Hpg.
    + intros _. eexists. split; [reflexivity|]. split; [exact Hpg | exact Hput].
Qed.

(** X14. No row without a stored object: a run of [upload_document]
    changes the table only by appending one row, and then the
    [upload_file] of the same run succeeded and the row's URL is the
    bucket URL of the key that call used; the row carries the caller's
    user id. *)
Theorem committed_row_points_at_stored_object w self file_path user_id st :
  exists d st',
    upload_document w self file_path user_id st = (Returned d, st')
    /\ (documents st' = documents st
        \/ exists row,
             documents st' = (documents st ++ [row])%list
             /\ put_keys (new_events st st')
                = [next_uuid w st ++ extension_of file_path]
             /\ upload_file_exc w file_path (s3_bucket_name self)
                  (next_uuid w st ++ extension_of file_path) = None
             /\ row_s3_url row
                = VStr (s3_url_of self (next_uuid w st ++ extension_of file_path))
             /\ row_user_id row = user_id
             /\ inserted_rows (new_events st st') = [row]).
Proof.
  destruct (upload_document_spec w self file_path user_id st)
    as [t [d [st' [Hrun HR]]]].
  exists d, st'. split; [exact Hrun|].
  destruct HR as [msg HV|v e HV Hvalid Hput|v err st' HV Hvalid Hput HS
                 |v id st' HV Hvalid Hput HS].
  - left. reflexivity.
  - left. reflexivity.
  - left. remember (failure (VStr err)) as d0 eqn:Hd0.
    destruct HS; try assumption.
    symmetry in Hd0. apply failure_not_saved in Hd0. contradiction.
  - right.
    destruct (SaveRun_saved _ _ _ _ _ _ _ _ HS) as [row [_ [Hrow [Ht Hd]]]].
    exists row. split; [exact Hd|].
    cbn [after_put trace] in Ht. rewrite <- app_assoc in Ht.
    rewrite (new_events_app _ _ _ Ht).
    destruct Hrow. repeat split; assumption || reflexivity.
Qed.

Lemma prefix_app p x : String.prefix p (p ++ x) = true.
Proof.
  induction p as [|c p IH].
  - destruct x; reflexivity.
  - change (String c p ++ x) with (String c (p ++ x)). cbn [String.prefix].
    destruct (ascii_dec c c) as [_|Hne]; [exact IH | contradiction].
Qed.

Lemma prefix_split p s : String.prefix p s = true -> exists r, s = p ++ r.
Proof.
  revert s. induction p as [|c p IH]; intros s H.
  - exists s. reflexivity.
  - destruct s as [|c' s]; cbn in H; [discriminate H|].
    destruct (ascii_dec c c') as [<-|Hne]; [|discriminate H].
    destruct (IH s H) as [r ->]. exists r. reflexivity.
Qed.

Lemma from_a_stage_intro p x :
  In p stage_prefixes -> from_a_stage (p ++ x) = true.
Proof.
  intros Hin. unfold from_a_stage. apply existsb_exists.
  exists p. split; [exact Hin | apply prefix_app].
Qed.

Lemma from_a_stage_not_catch_all text :
  from_a_stage text = true -> String.prefix "Upload failed: " text = false.
Proof.
  unfold from_a_stage. intros H. apply existsb_exists in H.
  destruct H as [p [Hin Hp]]. destruct (prefix_split _ _ Hp) as [r ->].
  cbn [stage_prefixes In] in Hin.
  repeat (destruct Hin as [<-|Hin]; [reflexivity|]). contradiction.
Qed.

Lemma Validation_from_a_stage w self file_path msg :
  Validation w self file_path (invalid msg) -> from_a_stage msg = true.
Proof.
  intros HV. remember (invalid msg) as d eqn:Hd.
  destruct HV.
  - apply invalid_inj in Hd. subst msg.
    apply (from_a_stage_intro "File does not exist" ""). cbn. auto.
  - apply invalid_inj in Hd. subst msg.
    apply (from_a_stage_intro "Validation error: "). cbn. auto.
  - apply invalid_inj in Hd. subst msg.
    apply (from_a_stage_intro "Unsupported file format. "
             ("Supported formats: "
              ++ PyStr.join ", " (elements (supported_extensions self)))).
    cbn. auto.
  - apply invalid_inj in Hd. subst msg.
    apply (from_a_stage_intro "File too large. "
             ("Maximum size: " ++ FloatFmt.mb0 (MAX_FILE_SIZE (config w))
              ++ "MB, Current size: " ++ FloatFmt.mb2 size ++ "MB")).
    cbn. auto.
  - symmetry in Hd. apply invalid_not_descriptor in Hd. contradiction.
Qed.

(** X15. The catch-all handler of [upload_document] is never reached:
    no subscript fails and no step lets an exception through.  Every
    error text that [upload_document] returns is the text of one of the
    three stages (validation, storage, database), and never begins with
    "Upload failed: ". *)
Theorem upload_document_errors_come_from_a_stage w self file_path user_id st :
  exists d st',
    upload_document w self file_path user_id st = (Returned d, st')
    /\ forall err, d !! "error" = Some err ->
         exists text,
           err = VStr text
           /\ from_a_stage text = true
           /\ String.prefix "Upload failed: " text = false.
Proof.
  destruct (upload_document_spec w self file_path user_id st)
    as [t [d [st' [Hrun HR]]]].
  exists d, st'. split; [exact Hrun|].
  assert (Hfail : forall text, from_a_stage text = true ->
            forall err, failure (VStr text) !! "error" = Some err ->
              exists text',
                err = VStr text' /\ from_a_stage text' = true
                /\ String.prefix "Upload failed: " text' = false).
  { intros text Hstage err Herr. rewrite failure_error in Herr.
    injection Herr as <-. exists text.
    auto using from_a_stage_not_catch_all. }
  destruct HR as [msg HV|v e HV Hvalid Hput|v err0 st' HV Hvalid Hput HS
                 |v id st' HV Hvalid Hput HS].
  - apply Hfail, (Validation_from_a_stage _ _ _ _ HV).
  - apply Hfail. unfold s3_error_text.
    destruct (exc_class e);
      first [ apply (from_a_stage_intro "S3 upload error: ")
            | apply (from_a_stage_intro "Upload error: ") ];
      cbn; auto 10.
  - destruct (SaveRun_failed _ _ _ _ _ _ _ _ HS) as [msg Hmsg].
    injection Hmsg as ->. apply Hfail.
    apply (from_a_stage_intro "Database error: "). cbn. auto 10.
  - intros err Herr. discriminate Herr.
Qed.

(** Random draws of a run, by terminal state. *)
Lemma UploadRun_draws w self file_path user_id st t d st' :
  UploadRun w self file_path user_id st t d st' ->
  match t with
  | Rejected => urandom_calls st' = urandom_calls st
  | StorageFailed => urandom_calls st' = S (urandom_calls st)
  | _ => urandom_calls st' = S (urandom_calls st)
         \/ urandom_calls st' = S (S (urandom_calls st))
  end.
Proof.
  assert (Hsave : forall v url d0 st0,
            SaveRun w self v url user_id
              (after_put self file_path
                 (next_uuid w st ++ extension_of file_path) st) d0 st0 ->
            urandom_calls st0 = S (urandom_calls st)
            \/ urandom_calls st0 = S (S (urandom_calls st))).
  { intros v url d0 st0 HS.
    destruct HS as [e st0 Hc Ht Hu|k st0 Hc Hk Ht Hu|row e st0 Hc Hrow He Ht Hu
                   |row e st0 Hc Hrow He Hcm Ht Hu|row st0 Hc Hrow He Hcm Ht Hu];
      rewrite Hu; cbn [after_put urandom_calls]; auto. }
  intros HR. destruct HR; eauto.
Qed.

(** X16. A run that reaches storage uses up the random draw its key was
    made from.  A rejected upload draws nothing; any other run hands
    [upload_file] the key made from the draw at the current position and
    advances the position by one or two, so the key of a later run, a
    retry included, is made from a later draw. *)
Theorem upload_document_consumes_its_draw w self file_path user_id st :
  exists d st',
    upload_document w self file_path user_id st = (Returned d, st')
    /\ ((put_keys (new_events st st') = []
         /\ urandom_calls st' = urandom_calls st)
        \/ (put_keys (new_events st st')
            = [Uuid.to_string (Uuid.uuid4_int (os_urandom w (urandom_calls st)))
               ++ extension_of file_path]
            /\ (urandom_calls st < urandom_calls st' <= urandom_calls st + 2)%nat)).
Proof.
  destruct (upload_document_spec w self file_path user_id st)
    as [t [d [st' [Hrun HR]]]].
  exists d, st'. split; [exact Hrun|].
  pose proof (UploadRun_events _ _ _ _ _ _ _ _ HR) as Hev.
  pose proof (UploadRun_draws _ _ _ _ _ _ _ _ HR) as Hdr.
  destruct t.
  - left. rewrite Hev. auto.
  - right. destruct Hev as [Hev _]. rewrite Hev. split; [reflexivity | lia].
  - right. destruct Hev as [evs [Hev [Hpg _]]]. rewrite Hev.
    cbn [put_keys]. rewrite (pg_events_no_put _ Hpg).
    split; [reflexivity | lia].
  - right. destruct Hev as [evs [Hev [Hpg _]]]. rewrite Hev.
    cbn [put_keys]. rewrite (pg_events_no_put _ Hpg).
    split; [reflexivity | lia].
Qed.

(** *** Path separators *)

Lemma has_char_app c a b : has_char c (a ++ b) = has_char c a || has_char c b.
Proof.
  induction a as [|x a IH]; [reflexivity|].
  change (String x a ++ b) with (String x (a ++ b)).
  cbn [has_char]. rewrite IH. apply orb_assoc.
Qed.

Lemma split_no_separator sep s x :
  In x (PyStr.split sep s) -> has_char sep x = false.
Proof.
  revert x. induction s as [|c s IH]; intros x Hin.
  - destruct Hin as [<-|[]]. reflexivity.
  - cbn [PyStr.split] in Hin.
    destruct (Ascii.eqb c sep) eqn:Hc.
    + destruct Hin as [<-|Hin]; [reflexivity | auto].
    + destruct (PyStr.split sep s) as [|h t].
      * destruct Hin as [<-|[]]. cbn [has_char]. rewrite Hc. reflexivity.
      * destruct Hin as [<-|Hin].
        -- cbn [has_char]. rewrite Hc. apply IH. left. reflexivity.
        -- apply IH. right. exact Hin.
Qed.

Lemma last_In {A} (l : list A) (d : A) : l <> [] -> In (List.last l d) l.
Proof.
  induction l as [|a l IH]; [contradiction|]. intros _.
  destruct l as [|b l]; [left; reflexivity|].
  right. apply IH. discriminate.
Qed.

Lemma name_no_separator file_path :
  has_char "/" (PurePath.name file_path) = false.
Proof.
  unfold PurePath.name.
  destruct (PurePath.parts file_path) as [|a l] eqn:Hparts; [reflexivity|].
  assert (Hin : In (List.last (a :: l) "") (PurePath.parts file_path))
    by (rewrite Hparts; apply last_In; discriminate).
  unfold PurePath.parts in Hin. apply filter_In in Hin as [Hin _].
  exact (split_no_separator _ _ _ Hin).
Qed.

Lemma has_char_substring c s i n :
  has_char c s = false -> has_char c (String.substring i n s) = false.
Proof.
  revert i n. induction s as [|a s IH]; intros i n H.
  - destruct i, n; reflexivity.
  - cbn [has_char] in H. apply orb_false_elim in H as [Ha Hs].
    destruct i as [|i]; destruct n as [|n]; cbn [String.substring]; auto.
    cbn [has_char]. rewrite Ha. cbn [orb]. auto.
Qed.

Lemma lower_ascii_separator a :
  Ascii.eqb (PyStr.lower_ascii a) "/" = Ascii.eqb a "/".
Proof. destruct a as [[] [] [] [] [] [] [] []]; reflexivity. Qed.

Lemma lower_no_separator s : has_char "/" (PyStr.lower s) = has_char "/" s.
Proof.
  induction s as [|a s IH]; [reflexivity|].
  cbn [PyStr.lower has_char]. rewrite lower_ascii_separator, IH. reflexivity.
Qed.

Lemma extension_no_separator file_path :
  has_char "/" (extension_of file_path) = false.
Proof.
  unfold extension_of. rewrite lower_no_separator. unfold PurePath.suffix.
  destruct (PyStr.rfind "." (PurePath.name file_path)) as [i|]; [|reflexivity].
  destruct (_ && _)%bool; [|reflexivity].
  apply has_char_substring, name_no_separator.
Qed.

Lemma uuid_char_no_separator i c :
  (if (i =? 8)%nat || (i =? 13)%nat || (i =? 18)%nat || (i =? 23)%nat
   then Ascii.eqb c "-"
   else if (i =? 14)%nat then Ascii.eqb c "4"
   else if (i =? 19)%nat
        then Ascii.eqb c "8" || Ascii.eqb c "9" || Ascii.eqb c "a" || Ascii.eqb c "b"
        else Uuid.is_hex c) = true ->
  Ascii.eqb c "/" = false.
Proof.
  destruct (Ascii.eqb c "/") eqn:Hc; [|reflexivity].
  apply Ascii.eqb_eq in Hc. subst c.
  destruct (_ || _)%bool; [discriminate|].
  destruct (i =? 14)%nat; [discriminate|].
  destruct (i =? 19)%nat; discriminate.
Qed.

Lemma shape_no_separator s i :
  Uuid.shape_from i s = true -> has_char "/" s = false.
Proof.
  revert i. induction s as [|c s IH]; intros i H; [reflexivity|].
  cbn [Uuid.shape_from] in H. apply andb_prop in H as [Hc Hs].
  cbn [has_char]. rewrite (uuid_char_no_separator _ _ Hc). exact (IH _ Hs).
Qed.

Lemma next_uuid_no_separator w st : has_char "/" (next_uuid w st) = false.
Proof.
  pose proof (next_uuid_shape w st) as H. unfold Uuid.is_uuid4_string in H.
  apply andb_prop in H as [_ H]. exact (shape_no_separator _ _ H).
Qed.

(** The rows a run sends to the INSERT carry the file name of the path. *)
Lemma UploadRun_rows w self file_path user_id st t d st' :
  UploadRun w self file_path user_id st t d st' ->
  forall row, In row (inserted_rows (new_events st st')) ->
    row_file_name row = VStr (PurePath.name file_path)
    /\ row_file_extension row = VStr (extension_of file_path).
Proof.
  assert (Hsave : forall v url d0 st0,
            Validation w self file_path v ->
            v !! "valid" = Some (VBool true) ->
            SaveRun w self v url user_id
              (after_put self file_path
                 (next_uuid w st ++ extension_of file_path) st) d0 st0 ->
            forall row, In row (inserted_rows (new_events st st0)) ->
              row_file_name row = VStr (PurePath.name file_path)
              /\ row_file_extension row = VStr (extension_of file_path)).
  { intros v url d0 st0 HV Hvalid HS row Hin.
    destruct (Validation_valid _ _ _ _ HV Hvalid) as [kind [size [_ [_ [_ Hv]]]]].
    assert (Hrow : forall r, SaveRow w self v url user_id
                     (after_put self file_path
                        (next_uuid w st ++ extension_of file_path) st) r ->
              row_file_name r = VStr (PurePath.name file_path)
              /\ row_file_extension r = VStr (extension_of file_path)).
    { intros r Hr. destruct Hr as [name ext fsize mime Hname Hext _ _].
      rewrite Hv in Hname, Hext.
      change (Some (VStr (PurePath.name file_path)) = Some name) in Hname.
      change (Some (VStr (extension_of file_path)) = Some ext) in Hext.
      injection Hname as <-. injection Hext as <-. auto. }
    destruct HS as [e st0 Hc Ht|k st0 Hc Hk Ht|r e st0 Hc Hr He Ht
                   |r e st0 Hc Hr He Hcm Ht|r st0 Hc Hr He Hcm Ht];
      cbn [after_put trace] in Ht; rewrite <- app_assoc in Ht;
      rewrite (new_events_app _ _ _ Ht) in Hin; cbn in Hin;
      try contradiction;
      (destruct Hin as [<-|[]]; apply Hrow, Hr). }
  intros HR row Hin.
  destruct HR as [msg HV|v e HV Hvalid Hput|v err st' HV Hvalid Hput HS
                 |v id st' HV Hvalid Hput HS].
  - rewrite new_events_same in Hin. contradiction.
  - rewrite (new_events_app st _ [S3_upload_file file_path (s3_bucket_name self)
                                    (next_uuid w st ++ extension_of file_path)])
      in Hin by reflexivity.
    contradiction.
  - exact (Hsave _ _ _ _ HV Hvalid HS row Hin).
  - exact (Hsave _ _ _ _ HV Hvalid HS row Hin).
Qed.

(** X17. Nothing of the caller's directory structure reaches the
    collaborators as a name: every key handed to [upload_file] and every
    [file_name] handed to the INSERT is free of the separator ['/'],
    whatever path the caller supplied. *)
Theorem stored_names_have_no_separator w self file_path user_id st :
  exists d st',
    upload_document w self file_path user_id st = (Returned d, st')
    /\ (forall key, In key (put_keys (new_events st st')) ->
          has_char "/" key = false)
    /\ (forall row, In row (inserted_rows (new_events st st')) ->
          exists name, row_file_name row = VStr name
                       /\ has_char "/" name = false).
Proof.
  destruct (upload_document_spec w self file_path user_id st)
    as [t [d [st' [Hrun HR]]]].
  exists d, st'. split; [exact Hrun|]. split.
  - assert (Hkey : has_char "/" (next_uuid w st ++ extension_of file_path) = false).
    { rewrite has_char_app, next_uuid_no_separator, extension_no_separator.
      reflexivity. }
    pose proof (UploadRun_events _ _ _ _ _ _ _ _ HR) as Hev.
    intros key Hin. destruct t.
    + rewrite Hev in Hin. contradiction.
    + destruct Hev as [Hev _]. rewrite Hev in Hin.
      destruct Hin as [<-|[]]. exact Hkey.
    + destruct Hev as [evs [Hev [Hpg _]]]. rewrite Hev in Hin.
      cbn [put_keys] in Hin. rewrite (pg_events_no_put _ Hpg) in Hin.
      destruct Hin as [<-|[]]. exact Hkey.
    + destruct Hev as [evs [Hev [Hpg _]]]. rewrite Hev in Hin.
      cbn [put_keys] in Hin. rewrite (pg_events_no_put _ Hpg) in Hin.
      destruct Hin as [<-|[]]. exact Hkey.
  - intros row Hin.
    destruct (UploadRun_rows _ _ _ _ _ _ _ _ HR row Hin) as [Hname _].
    exists (PurePath.name file_path). split; [exact Hname|].
    apply name_no_separator.
Qed.

(** ** Further properties of validation *)

Lemma validate_file_result w self file_path st d :
  Validation w self file_path d ->
  validate_file w self file_path st = (Returned d, st).
Proof.
  intros HV. destruct (validate_file_spec w self file_path st) as [d' [Hrun HV']].
  rewrite Hrun, (Validation_functional _ _ _ _ _ HV' HV). reflexivity.
Qed.

(** X18. The existence check comes first and a failing [os.stat] is
    reported, not raised: where there is no entry the result is
    "File does not exist", and where [os.stat] fails otherwise the result
    is "Validation error: " with the exception text, whatever the
    extension and the configuration; [upload_document] then returns the
    same text without calling a collaborator. *)
Theorem stat_failure_decides_first w self file_path user_id st e :
  (os_stat w (PurePath.str file_path) = StatMissing e ->
   validate_file w self file_path st = (Returned NotFound, st)
   /\ upload_document w self file_path user_id st
      = (Returned (failure (VStr "File does not exist")), st))
  /\ (os_stat w (PurePath.str file_path) = StatError e ->
      validate_file w self file_path st
      = (Returned (invalid ("Validation error: " ++ exc_str e)), st)
      /\ upload_document w self file_path user_id st
         = (Returned (failure (VStr ("Validation error: " ++ exc_str e))), st)).
Proof.
  split; intros Hs.
  - assert (Hv : validate_file w self file_path st = (Returned NotFound, st))
      by (apply validate_file_result; eapply V_missing; eauto).
    split; [exact Hv|]. apply upload_document_invalid. exact Hv.
  - assert (Hv : validate_file w self file_path st
                 = (Returned (invalid ("Validation error: " ++ exc_str e)), st))
      by (apply validate_file_result; eapply V_stat_error; eauto).
    split; [exact Hv|]. apply upload_document_invalid. exact Hv.
Qed.

Lemma stat_failure_decides_first_witness :
  (validate_file (Scenario.world Scenario.cfg None None None None)
     Scenario.uploader "absent.txt" Scenario.st0 = (Returned NotFound, Scenario.st0)
   /\ upload_document (Scenario.world Scenario.cfg None None None None)
        Scenario.uploader "absent.txt" "user123" Scenario.st0
      = (Returned (failure (VStr "File does not exist")), Scenario.st0))
  /\ (validate_file Cases.world_unreadable Scenario.uploader "locked/notes.txt"
        Scenario.st0
      = (Returned (invalid "Validation error: [Errno 13] Permission denied"),
         Scenario.st0)
      /\ upload_document Cases.world_unreadable Scenario.uploader
           "locked/notes.txt" "user123" Scenario.st0
         = (Returned (failure (VStr "Validation error: [Errno 13] Permission denied")),
            Scenario.st0)).
Proof.
  split.
  - apply (proj1 (stat_failure_decides_first
                    (Scenario.world Scenario.cfg None None None None)
                    Scenario.uploader "absent.txt" "user123" Scenario.st0
                    Scenario.enoent)).
    reflexivity.
  - apply (proj2 (stat_failure_decides_first Cases.world_unreadable
                    Scenario.uploader "locked/notes.txt" "user123" Scenario.st0
                    (mkExc OSError "[Errno 13] Permission denied"))).
    reflexivity.
Defined.

(** X19. [validate_file] only reads: it leaves the state as it found it
    (no collaborator call, no random draw, no row), and its result does
    not depend on the state, so validating the same path again, also after
    an upload, gives the same result. *)
Theorem validate_file_only_reads w self file_path st :
  exists d,
    validate_file w self file_path st = (Returned d, st)
    /\ (forall st2, validate_file w self file_path st2 = (Returned d, st2))
    /\ forall other_path user_id,
         fst (validate_file w self file_path
                (snd (upload_document w self other_path user_id st)))
         = Returned d.
Proof.
  destruct (validate_file_spec w self file_path st) as [d [Hrun HV]].
  exists d. split; [exact Hrun|]. split.
  - intros st2. apply validate_file_result, HV.
  - intros other_path user_id.
    rewrite (validate_file_result _ _ _ _ _ HV). reflexivity.
Qed.

Lemma elem_of_allow_set c a1 a2 a3 a4 a5 self ext :
  DocumentUploader_init c a1 a2 a3 a4 a5 = inr self ->
  ext ∈ supported_extensions self <-> In ext (SUPPORTED_EXTENSIONS c).
Proof.
  intros Hinit. rewrite (DocumentUploader_init_extensions _ _ _ _ _ _ _ Hinit).
  rewrite elem_of_list_to_set. apply list_elem_of_In.
Qed.

(** X20. An empty entry in [SUPPORTED_EXTENSIONS] (an empty value, a
    trailing or a doubled comma) admits every entry without a suffix:
    such a path passes the format check and, within the size limit, is
    valid with an empty [file_extension].  This includes directories. *)
Theorem empty_entry_admits_extensionless
    w self a1 a2 a3 a4 a5 file_path st kind size :
  DocumentUploader_init (config w) a1 a2 a3 a4 a5 = inr self ->
  In "" (SUPPORTED_EXTENSIONS (config w)) ->
  os_stat w (PurePath.str file_path) = StatOk kind size ->
  PurePath.suffix file_path = "" ->
  (size <= MAX_FILE_SIZE (config w))%Z ->
  validate_file w self file_path st
  = (Returned (descriptor (PurePath.name file_path) "" size
                 (guess_type w (PurePath.str file_path))
                 (PurePath.str file_path)), st).
Proof.
  intros Hinit Hentry Hs Hsuffix Hle.
  assert (Hext : extension_of file_path = "")
    by (unfold extension_of; rewrite Hsuffix; reflexivity).
  rewrite <- Hext at 1. apply validate_file_result.
  eapply V_valid; eauto.
  rewrite Hext. apply (elem_of_allow_set _ _ _ _ _ _ _ _ Hinit), Hentry.
Qed.

Lemma empty_entry_admits_extensionless_witness :
  validate_file Scenario.world_empty_entry Scenario.uploader_empty_entry "."
    Scenario.st0
  = (Returned (descriptor "" "" 4096 None "."), Scenario.st0).
Proof.
  apply (empty_entry_admits_extensionless Scenario.world_empty_entry
           Scenario.uploader_empty_entry None None None None None "."
           Scenario.st0 Directory 4096).
  - vm_compute. reflexivity.
  - right. left. reflexivity.
  - reflexivity.
  - reflexivity.
  - vm_compute. discriminate.
Defined.

Lemma split_without_separator sep s :
  has_char sep s = false -> PyStr.split sep s = [s].
Proof.
  induction s as [|c s IH]; [reflexivity|].
  cbn [has_char PyStr.split]. intros H. apply orb_false_elim in H as [Hc Hs].
  rewrite Hc, (IH Hs). reflexivity.
Qed.

Lemma name_of_name file_path :
  PurePath.name (PurePath.name file_path) = PurePath.name file_path.
Proof.
  pose proof (name_no_separator file_path) as Hsep.
  assert (Hcomp : PurePath.name file_path = ""
                  \/ PurePath.is_component (PurePath.name file_path) = true).
  { unfold PurePath.name.
    destruct (PurePath.parts file_path) as [|a l] eqn:Hparts; [left; reflexivity|].
    right.
    assert (Hin : In (List.last (a :: l) "") (PurePath.parts file_path))
      by (rewrite Hparts; apply last_In; discriminate).
    unfold PurePath.parts in Hin. apply filter_In in Hin as [_ Hcomp].
    exact Hcomp. }
  set (n := PurePath.name file_path) in *.
  destruct Hcomp as [-> | Hcomp]; [reflexivity|].
  unfold PurePath.name, PurePath.parts.
  rewrite (split_without_separator _ _ Hsep). cbn [List.filter].
  rewrite Hcomp. reflexivity.
Qed.

Lemma lower_ascii_idempotent a :
  PyStr.lower_ascii (PyStr.lower_ascii a) = PyStr.lower_ascii a.
Proof. destruct a as [[] [] [] [] [] [] [] []]; reflexivity. Qed.

Lemma lower_idempotent s : PyStr.lower (PyStr.lower s) = PyStr.lower s.
Proof.
  induction s as [|a s IH]; [reflexivity|].
  cbn [PyStr.lower]. rewrite lower_ascii_idempotent, IH. reflexivity.
Qed.

(** X21. A valid result of [validate_file] is a consistent descriptor:
    its [file_extension] is in the allow-set, is in lower case, and is the
    lowercased suffix of its [file_name]; its [file_name] holds no
    separator; its [file_size] is within the configured maximum; and it
    has no ['error'] entry. *)
Theorem valid_descriptor_is_consistent w self file_path st d :
  fst (validate_file w self file_path st) = Returned d ->
  d !! "valid" = Some (VBool true) ->
  exists name ext size,
    d !! "file_name" = Some (VStr name)
    /\ d !! "file_extension" = Some (VStr ext)
    /\ d !! "file_size" = Some (VInt size)
    /\ d !! "error" = None
    /\ ext ∈ supported_extensions self
    /\ PyStr.lower ext = ext
    /\ ext = PyStr.lower (PurePath.suffix name)
    /\ has_char "/" name = false
    /\ (size <= MAX_FILE_SIZE (config w))%Z.
Proof.
  intros Hd Hvalid.
  destruct (validate_file_fst _ _ _ _ _ Hd) as [_ HV].
  destruct (Validation_valid _ _ _ _ HV Hvalid) as [kind [size [_ [Hin [Hle ->]]]]].
  exists (PurePath.name file_path), (extension_of file_path), size.
  split; [reflexivity|]. split; [reflexivity|]. split; [reflexivity|].
  split; [reflexivity|]. split; [exact Hin|].
  split; [apply lower_idempotent|]. split.
  - unfold extension_of, PurePath.suffix. rewrite name_of_name. reflexivity.
  - split; [apply name_no_separator | exact Hle].
Qed.

Lemma valid_descriptor_is_consistent_witness :
  exists name ext size,
    descriptor "Syllabus.PDF" ".pdf" 2048 (Some "application/pdf") "Syllabus.PDF"
      !! "file_name" = Some (VStr name)
    /\ descriptor "Syllabus.PDF" ".pdf" 2048 (Some "application/pdf") "Syllabus.PDF"
         !! "file_extension" = Some (VStr ext)
    /\ descriptor "Syllabus.PDF" ".pdf" 2048 (Some "application/pdf") "Syllabus.PDF"
         !! "file_size" = Some (VInt size)
    /\ descriptor "Syllabus.PDF" ".pdf" 2048 (Some "application/pdf") "Syllabus.PDF"
         !! "error" = None
    /\ ext ∈ supported_extensions Scenario.uploader
    /\ PyStr.lower ext = ext
    /\ ext = PyStr.lower (PurePath.suffix name)
    /\ has_char "/" name = false
    /\ (size <= MAX_FILE_SIZE
                  (config (Scenario.world Scenario.cfg None None None None)))%Z.
Proof.
  apply (valid_descriptor_is_consistent
           (Scenario.world Scenario.cfg None None None None)
           Scenario.uploader "./Syllabus.PDF" Scenario.st0).
  - vm_compute. reflexivity.
  - vm_compute. reflexivity.
Defined.
